(** * user_exec: running osquery in a user context, and the table built on it

    A shallow embedding of [orbit/pkg/table/user_exec/exec.go].

    The Go code talks to the operating system (identity lookup, temporary
    directories, permissions, subprocesses), to [encoding/json] and to the
    constraint helper of the table library.  Those collaborators are kept
    abstract in an environment record [Env]; the functions of the package
    itself are state-passing functions over an [OS] state which holds the
    directory tree, the clock and the log of every call made to the outside
    world. *)

From Stdlib Require Import ZArith String Ascii List.
From Stdlib.Strings Require Import Byte.
From stdpp Require Import gmap strings list fin_maps.

Local Open Scope Z_scope.

(* ===================================================================== *)
(** * Go values *)
(* ===================================================================== *)

(** [[]byte]. *)
Abbreviation bytes := (list Byte.byte).

(** [error]: [None] is [nil], [Some msg] an error with that message. *)
Abbreviation error := (option string).

(** [map[string]string]: [None] is the nil map, which can be read but not
    written; [Some m] is an allocated map. *)
Abbreviation Row := (option (gmap string string)).

(** What calling a function leads to: a normal return or a run-time panic. *)
Inductive Outcome (A : Type) : Type :=
| Return (a : A)
| Panic (msg : string).
Arguments Return {A} a.
Arguments Panic {A} msg.

(** [int] and [time.Duration] are 64-bit signed integers. *)
Definition int64 (z : Z) : Z := (z + 2 ^ 63) mod 2 ^ 64 - 2 ^ 63.

(** [time.Second], in nanoseconds. *)
Definition Second : Z := 1000000000.

(** [time.Duration(a) * b]. *)
Definition Duration_mul (a b : Z) : Z := int64 (int64 a * b).

(** [context.Context], reduced to what [os/exec] reads from it: the absolute
    deadline in nanoseconds, when there is one. *)
Record Context : Type := { Deadline : option Z }.

(** [user.User]. *)
Record User : Type := {
  Uid : string;
  Gid : string;
  Username : string;
  Name : string;
  HomeDir : string
}.

(** [exec.Cmd], with the context it was built from. *)
Record Cmd : Type := {
  Path : string;
  Args : list string;
  Dir : string;
  cmd_ctx : Context
}.

(** [table.ColumnDefinition] and [table.TextColumn] of osquery-go. *)
Record ColumnDefinition : Type := {
  col_Name : string;
  col_Type : string
}.

Definition TextColumn (name : string) : ColumnDefinition :=
  {| col_Name := name; col_Type := "TEXT" |}.

(** [table.QueryContext] of osquery-go: for each constrained column, its
    affinity and the list of its constraints (operator code and
    expression). *)
Record Constraint : Type := {
  Operator : Z;
  Expression : string
}.

Record ConstraintList : Type := {
  Affinity : string;
  Constraints : list Constraint
}.

Record QueryContext : Type := {
  qc_Constraints : gmap string ConstraintList
}.

(** Permission bits [0o700] (what [os.MkdirTemp] asks for) and [0o755]. *)
Definition perm_0o700 : Z := 7 * 64.
Definition perm_0o755 : Z := 7 * 64 + 5 * 8 + 5.

(** The bits of a mode that grant something to the group and to others. *)
Definition group_bits : Z := 7 * 8.
Definition other_bits : Z := 7.
Definition other_r : Z := 4.
Definition other_w : Z := 2.
Definition other_x : Z := 1.

(* ===================================================================== *)
(** * The outside world *)
(* ===================================================================== *)

(** Every call that leaves the package is logged. *)
Inductive Event : Type :=
| EvWithTimeout (d : Z)                      (* context.WithTimeout(_, d) *)
| EvCancel                                   (* cancel() *)
| EvLookup (username : string)               (* user.Lookup *)
| EvMkdirTemp (pattern : string) (res : string + string)
| EvChmod (name : string) (mode : Z)         (* os.Chmod *)
| EvRun (c : Cmd) (dirmode : option Z)       (* cmd.Run, with the mode of c.Dir *)
| EvRemoveAll (path : string) (err : error)  (* os.RemoveAll and its result *)
| EvLog (msg : string).                      (* log.Info()...Msg *)

(** The state of the machine: the mode of every path that exists, the clock
    (nanoseconds) and the log. *)
Record OS : Type := {
  fs : gmap string Z;
  now : Z;
  trace : list Event
}.

(** What a spawned program does, as far as [cmd.Run] can tell. *)
Record Proc : Type := {
  start_err : error;        (* the program could not be started *)
  duration : Z;             (* how long it runs if nobody kills it *)
  linger : Z;               (* once killed, how long its descendants keep the
                               output pipes open *)
  wait_err : error;         (* nil for exit status 0 *)
  p_stdout : bytes;
  p_stderr : bytes;
  p_fs : gmap string Z      (* the file system as the program leaves it *)
}.

(** The collaborators of the package.  A sum [string + A] is Go's
    [(A, error)] when exactly one of the two is meaningful: [inl msg] is the
    error. *)
Record Env : Type := {
  (* os/user.Lookup *)
  user_Lookup : OS -> string -> string + User;
  (* the directory os.MkdirTemp manages to create under the given pattern *)
  mkdir_temp : OS -> string -> string -> string + string;
  (* the error of the chmod system call on an existing path *)
  chmod_err : OS -> string -> Z -> error;
  (* the program started by a command *)
  spawn : OS -> Cmd -> Proc;
  (* os.RemoveAll: the paths it cannot remove, and the error it reports when
     some of them are left *)
  remove_all : OS -> string -> list string * string;
  (* encoding/json.Unmarshal into a []map[string]string: the value left in
     the target, and the error; on a type error the target keeps what was
     decoded so far *)
  json_Unmarshal : bytes -> list Row * error;
  (* tablehelpers.GetConstraints(queryContext, column,
       tablehelpers.WithAllowedCharacters(allowed)) *)
  GetConstraints : QueryContext -> string -> string -> list string
}.

(* ===================================================================== *)
(** * State passing *)
(* ===================================================================== *)

Definition M (A : Type) : Type := OS -> A * OS.

Definition ret {A : Type} (a : A) : M A := fun s => (a, s).

Definition bind {A B : Type} (m : M A) (k : A -> M B) : M B :=
  fun s => let (a, s') := m s in k a s'.

Declare Scope go_scope.
Delimit Scope go_scope with go.
Notation "'let*' p ':=' m 'in' k" := (bind m (fun p => k))
  (at level 10, p pattern, m at level 100, k at level 200) : go_scope.

Local Open Scope go_scope.

(** [defer d] in front of [body]: [d] runs when [body] has produced the
    value to return, and what [d] returns is dropped. *)
Definition defer {A B : Type} (d : M B) (body : M A) : M A :=
  let* a := body in let* _ := d in ret a.

Definition emit (e : Event) : M unit :=
  fun s => (tt, {| fs := fs s; now := now s; trace := trace s ++ [e] |}).

Definition get : M OS := fun s => (s, s).

Definition set_fs (f : gmap string Z) : M unit :=
  fun s => (tt, {| fs := f; now := now s; trace := trace s |}).

Definition set_now (t : Z) : M unit :=
  fun s => (tt, {| fs := fs s; now := t; trace := trace s |}).

(* ===================================================================== *)
(** * The library calls made by the package *)
(* ===================================================================== *)

(** The context derived by [context.WithTimeout(ctx, d)] at time [t]. *)
Definition with_timeout (ctx : Context) (t d : Z) : Context :=
  {| Deadline := Some (match Deadline ctx with
                       | Some p => Z.min p (t + d)
                       | None => t + d
                       end) |}.

Section Package.

Variable E : Env.

(** [context.WithTimeout(parent, d)]: the deadline is [d] from now, unless
    the parent's is earlier. *)
Definition context_WithTimeout (parent : Context) (d : Z) : M Context :=
  let* _ := emit (EvWithTimeout d) in
  let* s := get in
  ret (with_timeout parent (now s) d).

Definition cancel : M unit := emit EvCancel.

(** [user.Lookup(username)]. *)
Definition Lookup (username : string) : M (string + User) :=
  let* _ := emit (EvLookup username) in
  let* s := get in
  ret (user_Lookup E s username).

(** [exec.CommandContext(ctx, name, arg...)]. *)
Definition exec_CommandContext (ctx : Context) (name : string)
    (arg : list string) : Cmd :=
  {| Path := name; Args := name :: arg; Dir := EmptyString; cmd_ctx := ctx |}.

Definition set_Dir (c : Cmd) (dir : string) : Cmd :=
  {| Path := Path c; Args := Args c; Dir := dir; cmd_ctx := cmd_ctx c |}.

(** [os.MkdirTemp(dir, pattern)]: the new directory has mode [0o700]. *)
Definition os_MkdirTemp (dir pattern : string) : M (string + string) :=
  let* s := get in
  let r := mkdir_temp E s dir pattern in
  let* _ := emit (EvMkdirTemp pattern r) in
  match r with
  | inl err => ret (inl err)
  | inr name =>
      let* _ := set_fs (<[name := perm_0o700]> (fs s)) in
      ret (inr name)
  end.

(** [os.Chmod(name, mode)]. *)
Definition os_Chmod (name : string) (mode : Z) : M error :=
  let* _ := emit (EvChmod name mode) in
  let* s := get in
  match fs s !! name with
  | None => ret (Some ("chmod " +:+ name +:+ ": no such file or directory"))
  | Some _ =>
      match chmod_err E s name mode with
      | Some err => ret (Some err)
      | None =>
          let* _ := set_fs (<[name := mode]> (fs s)) in
          ret None
      end
  end.

(** [p] is [path] or lies below it. *)
Definition under (path p : string) : bool :=
  String.eqb p path || String.prefix (path +:+ "/") p.

(** [os.RemoveAll(path)]: removes [path] and everything below it, as far
    as it can; the error is nil when nothing at or below [path] is left. *)
Definition os_RemoveAll (path : string) : M error :=
  let* s := get in
  let '(kept, msg) := remove_all E s path in
  let left :=
    filter (fun kv => under path kv.1 = false \/ kv.1 ∈ kept) (fs s) in
  let err :=
    if decide (filter (fun kv => under path kv.1 = true) left = ∅)
    then None else Some msg in
  let* _ := emit (EvRemoveAll path err) in
  let* _ := set_fs left in
  ret err.

(** Whether the deadline of a context has passed at time [t]. *)
Definition expired (ctx : Context) (t : Z) : bool :=
  match Deadline ctx with
  | Some dl => dl <=? t
  | None => false
  end.

(** [cmd.Run()] with [cmd.Stdout] and [cmd.Stderr] set to fresh buffers:
    the error, and the contents of the two buffers afterwards.  A command
    built by [exec.CommandContext] is killed when the deadline of its
    context passes; [Run] then returns once every holder of the output
    pipes has closed them, which can be later. *)
Definition cmd_Run (c : Cmd) : M (error * bytes * bytes) :=
  let* s := get in
  let* _ := emit (EvRun c (fs s !! Dir c)) in
  if expired (cmd_ctx c) (now s) then
    ret (Some "context deadline exceeded", [], [])
  else
    let p := spawn E s c in
    match start_err p with
    | Some err => ret (Some err, [], [])
    | None =>
        let* _ := set_fs (p_fs p) in
        let finish := now s + Z.max 0 (duration p) in
        match Deadline (cmd_ctx c) with
        | Some dl =>
            if dl <? finish then
              let* _ := set_now (dl + Z.max 0 (linger p)) in
              ret (Some "signal: killed", p_stdout p, p_stderr p)
            else
              let* _ := set_now finish in
              ret (wait_err p, p_stdout p, p_stderr p)
        | None =>
            let* _ := set_now finish in
            ret (wait_err p, p_stdout p, p_stderr p)
        end
    end.

(* ===================================================================== *)
(** * exec.go *)
(* ===================================================================== *)

(** [ExecOsqueryLaunchctl] runs osquery under launchctl, in a user
    context. *)
Definition ExecOsqueryLaunchctl (ctx : Context) (timeoutSeconds : Z)
    (username osqueryPath query : string) : M (bytes * error) :=
  let* ctx := context_WithTimeout ctx (Duration_mul timeoutSeconds Second) in
  defer cancel (
    let* r := Lookup username in
    match r with
    | inl err =>
        ret ([], Some ("looking up username " +:+ username +:+ ": " +:+ err))
    | inr targetUser =>
        let cmd := exec_CommandContext ctx "launchctl"
                     [ "asuser"; Uid targetUser; osqueryPath;
                       "--config_path"; "/dev/null";
                       "--disable_events";
                       "--disable_database";
                       "--disable_audit";
                       "--ephemeral";
                       "-S";
                       "--json";
                       query ] in
        let* r := os_MkdirTemp EmptyString "osq-launchctl" in
        match r with
        | inl err => ret ([], Some ("mktemp: " +:+ err))
        | inr dir =>
            defer (os_RemoveAll dir) (
              let* e := os_Chmod dir perm_0o755 in
              match e with
              | Some err => ret ([], Some ("chmod: " +:+ err))
              | None =>
                  let cmd := set_Dir cmd dir in
                  let* (e, stdout, stderr) := cmd_Run cmd in
                  match e with
                  | Some err =>
                      ret ([], Some ("running osquery. Got: '"
                                     +:+ string_of_list_byte stderr
                                     +:+ "': " +:+ err))
                  | None => ret (stdout, None)
                  end
              end)
        end
    end).

(** [ExecOsqueryLaunchctlParsed]: the same, with the output decoded.  What a
    failed [json.Unmarshal] left in [osqueryResults] is not returned. *)
Definition ExecOsqueryLaunchctlParsed (ctx : Context) (timeoutSeconds : Z)
    (username osqueryPath query : string) : M (list Row * error) :=
  let* (outBytes, err) :=
    ExecOsqueryLaunchctl ctx timeoutSeconds username osqueryPath query in
  match err with
  | Some err => ret ([], Some err)
  | None =>
      let '(osqueryResults, e) := json_Unmarshal E outBytes in
      match e with
      | Some err =>
          let* _ := emit (EvLog "error unmarshalling json") in
          ret ([], Some ("unmarshalling json: " +:+ err))
      | None => ret (osqueryResults, None)
      end
  end.

Definition allowedUsernameCharacters : string :=
  "abcdefghijklmnopqrstuvwxyzABCDEFGHIJKLMNOPQRSTUVWXYZ0123456789_-. ".

(** [Table] provides a table generator that will call osquery in a user
    context. *)
Record Table : Type := {
  osqueryd : string;
  query : string;
  tablename : string
}.

(** [table.Plugin] of osquery-go: a name, the columns and the generate
    callback. *)
Record Plugin : Type := {
  plugin_name : string;
  plugin_columns : list ColumnDefinition;
  plugin_generate : Context -> QueryContext -> M (Outcome (list Row * error))
}.

(** The inner loop of [generate]:
    for each row of osqueryResults, set its user entry to [user] and
    append it to results.  Assigning into a nil map panics. *)
Fixpoint generate_rows (user : string) (osqueryResults results : list Row)
    : Outcome (list Row) :=
  match osqueryResults with
  | [] => Return results
  | row :: osqueryResults =>
      match row with
      | None => Panic "assignment to entry in nil map"
      | Some m =>
          generate_rows user osqueryResults
            (results ++ [Some (<["user" := user]> m)])
      end
  end.

(** The outer loop of [generate], over the users. *)
Fixpoint generate_users (t : Table) (ctx : Context) (users : list string)
    (results : list Row) : M (Outcome (list Row)) :=
  match users with
  | [] => ret (Return results)
  | user :: users =>
      let* (osqueryResults, err) :=
        ExecOsqueryLaunchctlParsed ctx 5 user (osqueryd t) (query t) in
      match err with
      | Some _ => generate_users t ctx users results
      | None =>
          match generate_rows user osqueryResults results with
          | Panic msg => ret (Panic msg)
          | Return results => generate_users t ctx users results
          end
      end
  end.

(** The method [generate] of [Table]. *)
Definition generate (t : Table) (ctx : Context) (queryContext : QueryContext)
    : M (Outcome (list Row * error)) :=
  let results : list Row := [] in
  let users :=
    GetConstraints E queryContext "user" allowedUsernameCharacters in
  if (length users =? 0)%nat then
    ret (Return ([], Some ("The " +:+ tablename t +:+ " table requires a user")))
  else
    let* r := generate_users t ctx users results in
    match r with
    | Panic msg => ret (Panic msg)
    | Return results => ret (Return (results, None))
    end.

(** [TablePlugin]. *)
Definition TablePlugin (tablename osqueryd osqueryQuery : string)
    (columns : list ColumnDefinition) : Plugin :=
  let columns := columns ++ [TextColumn "user"] in
  let t := {| osqueryd := osqueryd;
              query := osqueryQuery;
              tablename := tablename |} in
  {| plugin_name := tablename;
     plugin_columns := columns;
     plugin_generate := generate t |}.

End Package.

(* ===================================================================== *)
(** * The constraint helper *)
(* ===================================================================== *)

(** Whether every character of [value] occurs in [allowed]. *)
Definition only_allowed (allowed value : string) : bool :=
  forallb (fun c => existsb (Ascii.eqb c) (list_ascii_of_string allowed))
          (list_ascii_of_string value).

(** Modelled from the spec: [tablehelpers.GetConstraints] with the option
    [tablehelpers.WithAllowedCharacters], which [generate] calls and which
    lives in a library outside this package.  The spec (Constraint
    Extractor): extract all values constrained on the column, keep those
    whose characters all belong to the allowlist, silently drop the others;
    the result is a set, so a value occurs once. *)
Definition tablehelpers_GetConstraints (queryContext : QueryContext)
    (columnName allowed : string) : list string :=
  match qc_Constraints queryContext !! columnName with
  | None => []
  | Some q =>
      remove_dups
        (List.filter (only_allowed allowed) (map Expression (Constraints q)))
  end.

(** Letters, digits, underscore, hyphen, period and space. *)
Definition is_letter (c : ascii) : bool :=
  let n := N_of_ascii c in
  ((97 <=? n) && (n <=? 122) || (65 <=? n) && (n <=? 90))%N.

Definition is_digit (c : ascii) : bool :=
  let n := N_of_ascii c in ((48 <=? n) && (n <=? 57))%N.

Definition is_username_char (c : ascii) : bool :=
  is_letter c || is_digit c
  || Ascii.eqb c "_" || Ascii.eqb c "-" || Ascii.eqb c "." || Ascii.eqb c " ".

(* ===================================================================== *)
(** * A small machine to run the package on *)
(* ===================================================================== *)

Module Demo.

(** The double quote character. *)
Definition dq : string := String (ascii_of_nat 34) EmptyString.

(** One record: key is v. *)
Definition out_alice : bytes :=
  list_byte_of_string ("[{" +:+ dq +:+ "key" +:+ dq +:+ ":" +:+ dq +:+ "v" +:+ dq +:+ "}]").

(** One record: key is v, user is root. *)
Definition out_carol : bytes :=
  list_byte_of_string ("[{" +:+ dq +:+ "key" +:+ dq +:+ ":" +:+ dq +:+ "v" +:+ dq +:+ ","
                       +:+ dq +:+ "user" +:+ dq +:+ ":" +:+ dq +:+ "root" +:+ dq +:+ "}]").

(** Two records, the second with the number 1 for a value. *)
Definition out_dave : bytes :=
  list_byte_of_string ("[{" +:+ dq +:+ "key" +:+ dq +:+ ":" +:+ dq +:+ "v" +:+ dq +:+ "},{"
                       +:+ dq +:+ "n" +:+ dq +:+ ":1}]").

Definition mkuser (uid name : string) : User :=
  {| Uid := uid; Gid := "20"; Username := name; Name := name;
     HomeDir := "/Users/" +:+ name |}.

(** alice, bob, carol and dave exist. *)
Definition lookup (s : OS) (username : string) : string + User :=
  if String.eqb username "alice" then inr (mkuser "501" "alice")
  else if String.eqb username "bob" then inr (mkuser "502" "bob")
  else if String.eqb username "carol" then inr (mkuser "503" "carol")
  else if String.eqb username "dave" then inr (mkuser "504" "dave")
  else inl ("user: unknown user " +:+ username).

Definition uid_of (c : Cmd) : string := nth 2 (Args c) EmptyString.

(** osquery answers within a second for alice, carol and dave, leaving a
    file in its working directory, and hangs for ten seconds for anybody
    else. *)
Definition program (s : OS) (c : Cmd) : Proc :=
  let answer out :=
    {| start_err := None; duration := Second; linger := 0; wait_err := None;
       p_stdout := out; p_stderr := [];
       p_fs := <[Dir c +:+ "/osquery.flags" := 420]> (fs s) |} in
  if String.eqb (uid_of c) "501" then answer out_alice
  else if String.eqb (uid_of c) "503" then answer out_carol
  else if String.eqb (uid_of c) "504" then answer out_dave
  else {| start_err := None; duration := 10 * Second; linger := 0;
          wait_err := None;
          p_stdout := []; p_stderr := []; p_fs := fs s |}.

Definition bytes_eqb (a b : bytes) : bool :=
  String.eqb (string_of_list_byte a) (string_of_list_byte b).

(** The decoder on the three outputs above; anything else is a syntax
    error. *)
Definition unmarshal (b : bytes) : list Row * error :=
  if bytes_eqb b out_alice then ([Some {[ "key" := "v" ]}], None)
  else if bytes_eqb b out_carol then
    ([Some (<[ "user" := "root" ]> {[ "key" := "v" ]})], None)
  else if bytes_eqb b out_dave then
    ([Some {[ "key" := "v" ]}; Some ∅],
     Some "json: cannot unmarshal number into Go value of type string")
  else ([], Some "invalid character").

Definition env : Env :=
  {| user_Lookup := lookup;
     mkdir_temp := fun _ _ pattern => inr ("/tmp/" +:+ pattern +:+ "2051621813");
     chmod_err := fun _ _ _ => None;
     spawn := program;
     remove_all := fun _ _ => ([], EmptyString);
     json_Unmarshal := unmarshal;
     GetConstraints := tablehelpers_GetConstraints |}.


Definition boot : OS := {| fs := ∅; now := 0; trace := [] |}.

Definition background : Context := {| Deadline := None |}.

Definition equals (v : string) : Constraint :=
  {| Operator := 2; Expression := v |}.

(** The query context of [... WHERE user = v1 OR user = v2 ...]. *)
Definition where_user (vs : list string) : QueryContext :=
  {| qc_Constraints :=
       {[ "user" := {| Affinity := "TEXT"; Constraints := map equals vs |} ]} |}.

Definition no_constraint : QueryContext := {| qc_Constraints := ∅ |}.

Definition tbl : Table :=
  {| osqueryd := "/opt/orbit/bin/osqueryd";
     query := "select * from authdb";
     tablename := "authdb" |}.

End Demo.

(* ===================================================================== *)
(** * The calls made by a computation *)
(* ===================================================================== *)

(** The events a computation adds to the log when started in [s]. *)
Definition calls {A : Type} (m : M A) (s : OS) : list Event :=
  drop (length (trace s)) (trace (snd (m s))).

(** The durations handed to [context.WithTimeout], in order. *)
Fixpoint timeouts (l : list Event) : list Z :=
  match l with
  | [] => []
  | EvWithTimeout d :: l => d :: timeouts l
  | _ :: l => timeouts l
  end.

(* ===================================================================== *)
(** * The paths through ExecOsqueryLaunchctl *)
(* ===================================================================== *)

(** The command line built by [ExecOsqueryLaunchctl], once [cmd.Dir] is
    set. *)
Definition launchctl_cmd (ctx : Context) (targetUser : User)
    (osqueryPath query dir : string) : Cmd :=
  {| Path := "launchctl";
     Args := [ "launchctl"; "asuser"; Uid targetUser; osqueryPath;
               "--config_path"; "/dev/null"; "--disable_events";
               "--disable_database"; "--disable_audit"; "--ephemeral";
               "-S"; "--json"; query ];
     Dir := dir;
     cmd_ctx := ctx |}.

(** The four ways through the function: where it stopped, and what it had
    obtained by then. *)
Inductive ExecPath : Type :=
| LookupFailed (err : string)
| MkdirFailed (targetUser : User) (err : string)
| ChmodFailed (targetUser : User) (dir err : string) (rm : error)
| Ran (targetUser : User) (dir : string) (e : error) (stdout stderr : bytes)
      (rm : error).

Definition path_calls (ctx : Context) (d : Z) (username osqueryPath query : string)
    (path : ExecPath) : list Event :=
  EvWithTimeout d :: EvLookup username ::
  match path with
  | LookupFailed _ => []
  | MkdirFailed _ err => [EvMkdirTemp "osq-launchctl" (inl err)]
  | ChmodFailed _ dir _ rm =>
      [EvMkdirTemp "osq-launchctl" (inr dir); EvChmod dir perm_0o755;
       EvRemoveAll dir rm]
  | Ran targetUser dir _ _ _ rm =>
      [EvMkdirTemp "osq-launchctl" (inr dir); EvChmod dir perm_0o755;
       EvRun (launchctl_cmd ctx targetUser osqueryPath query dir)
             (Some perm_0o755);
       EvRemoveAll dir rm]
  end ++ [EvCancel].

Definition path_result (username : string) (path : ExecPath) : bytes * error :=
  match path with
  | LookupFailed err =>
      ([], Some ("looking up username " +:+ username +:+ ": " +:+ err))
  | MkdirFailed _ err => ([], Some ("mktemp: " +:+ err))
  | ChmodFailed _ _ err _ => ([], Some ("chmod: " +:+ err))
  | Ran _ _ (Some err) _ stderr _ =>
      ([], Some ("running osquery. Got: '" +:+ string_of_list_byte stderr
                 +:+ "': " +:+ err))
  | Ran _ _ None stdout _ _ => (stdout, None)
  end.

(** The scratch directory of a path, if it got one. *)
Definition path_dir (path : ExecPath) : option string :=
  match path with
  | LookupFailed _ | MkdirFailed _ _ => None
  | ChmodFailed _ dir _ _ | Ran _ dir _ _ _ _ => Some dir
  end.

(** The result of [os.RemoveAll] on the scratch directory, when a path got
    that far. *)
Definition path_rm (path : ExecPath) : option error :=
  match path with
  | LookupFailed _ | MkdirFailed _ _ => None
  | ChmodFailed _ _ _ rm | Ran _ _ _ _ _ rm => Some rm
  end.

(** The user a path resolved, if it did. *)
Definition path_user (path : ExecPath) : option User :=
  match path with
  | LookupFailed _ => None
  | MkdirFailed usr _ | ChmodFailed usr _ _ _ | Ran usr _ _ _ _ _ => Some usr
  end.

(** The events of one user's turn in [generate]: those of a path of the
    runner for that user, or the log line of the decoder. *)
Definition turn_event (E : Env) (ctx : Context) (t : Table) (username : string)
    (ev : Event) : Prop :=
  ev = EvLog "error unmarshalling json" \/
  exists now0 path,
    ev ∈ path_calls (with_timeout ctx now0 (5 * Second)) (5 * Second)
           username (osqueryd t) (query t) path /\
    (forall usr, path_user path = Some usr ->
                 exists s0, user_Lookup E s0 username = inr usr).

(** A decoded row once [generate] has set its user entry. *)
Definition tag (user : string) (m : gmap string string) : Row :=
  Some (<["user" := user]> m).

(** Every user of the list fails in turn, each one starting from the state
    the previous one left. *)
Fixpoint all_fail (E : Env) (t : Table) (ctx : Context) (users : list string)
    (s : OS) : Prop :=
  match users with
  | [] => True
  | user :: users =>
      let r := ExecOsqueryLaunchctlParsed E ctx 5 user (osqueryd t) (query t) s in
      is_Some (snd (fst r)) /\ all_fail E t ctx users (snd r)
  end.


(** The turns the loop of [generate] takes: the user of each turn and the
    state the turn starts from. *)
Fixpoint turns (E : Env) (t : Table) (ctx : Context) (users : list string)
    (results : list Row) (s : OS) : list (string * OS) :=
  match users with
  | [] => []
  | user :: users =>
      let r := ExecOsqueryLaunchctlParsed E ctx 5 user (osqueryd t) (query t) s in
      (user, s) ::
      match fst r with
      | (_, Some _) => turns E t ctx users results (snd r)
      | (osqueryResults, None) =>
          match generate_rows user osqueryResults results with
          | Return results => turns E t ctx users results (snd r)
          | Panic _ => []
          end
      end
  end.

(** The state in which the runner, entered in [s] with a timeout of [d],
    asks for the user. *)
Definition lookup_state (s : OS) (d : Z) (username : string) : OS :=
  {| fs := fs s; now := now s;
     trace := trace s ++ [EvWithTimeout d; EvLookup username] |}.


(** The workspace as a private directory: whenever the subprocess is
    started, the mode of its working directory grants nothing to other
    users. *)
Definition workspace_denies_others (E : Env) (ctx : Context) (ts : Z)
    (username osqueryPath query : string) (s : OS) : Prop :=
  forall (c : Cmd) (mode : Z),
    EvRun c (Some mode)
      ∈ calls (ExecOsqueryLaunchctl E ctx ts username osqueryPath query) s ->
    Z.land mode other_bits = 0.

(** The usernames handed to [user.Lookup], in order. *)
Fixpoint lookups (l : list Event) : list string :=
  match l with
  | [] => []
  | EvLookup u :: l => u :: lookups l
  | _ :: l => lookups l
  end.

(** The commands handed to [cmd.Run], in order. *)
Fixpoint runs (l : list Event) : list Cmd :=
  match l with
  | [] => []
  | EvRun c _ :: l => c :: runs l
  | _ :: l => runs l
  end.

(** The errors reported by [os.RemoveAll], in order. *)
Fixpoint removal_errors (l : list Event) : list string :=
  match l with
  | [] => []
  | EvRemoveAll _ (Some err) :: l => err :: removal_errors l
  | _ :: l => removal_errors l
  end.

(** The programs of a machine only touch what lies at or below their
    working directory. *)
Definition confined (E : Env) : Prop :=
  forall (s : OS) (c : Cmd) (x : string),
    under (Dir c) x = false -> p_fs (spawn E s c) !! x = fs s !! x.

(** The result of [ExecOsqueryLaunchctl] once [cmd.Run] has returned. *)
Definition run_result (r : error * bytes * bytes) : bytes * error :=
  match r with
  | (Some err, _, stderr) =>
      ([], Some ("running osquery. Got: '" +:+ string_of_list_byte stderr
                 +:+ "': " +:+ err))
  | (None, stdout, _) => (stdout, None)
  end.

(** Two more machines: one whose programs never end, one whose decoder
    yields a null record. *)
Module Faulty.

Definition hang (s : OS) (c : Cmd) : Proc :=
  {| start_err := None; duration := 3600 * Second; linger := 3 * Second;
     wait_err := None;
     p_stdout := Demo.out_alice; p_stderr := []; p_fs := fs s |}.

Definition env_hang : Env :=
  {| user_Lookup := Demo.lookup;
     mkdir_temp := fun _ _ pattern => inr ("/tmp/" +:+ pattern +:+ "2051621813");
     chmod_err := fun _ _ _ => None;
     spawn := hang;
     remove_all := fun _ _ => ([], EmptyString);
     json_Unmarshal := Demo.unmarshal;
     GetConstraints := tablehelpers_GetConstraints |}.



End Faulty.

(* ===================================================================== *)
(** * Facts about the runner and the loops *)
(* ===================================================================== *)

Lemma timeouts_app (l1 l2 : list Event) :
  timeouts (l1 ++ l2) = timeouts l1 ++ timeouts l2.
Proof.
  induction l1 as [|ev l1 IH]; [done|].
  destruct ev; simpl; by rewrite ?IH.
Qed.

Lemma removal_errors_app (l1 l2 : list Event) :
  removal_errors (l1 ++ l2) = removal_errors l1 ++ removal_errors l2.
Proof.
  induction l1 as [|ev l1 IH]; [done|].
  destruct ev as [| | | | | |? [?|]|]; simpl; by rewrite ?IH.
Qed.

Lemma lookups_app (l1 l2 : list Event) :
  lookups (l1 ++ l2) = lookups l1 ++ lookups l2.
Proof.
  induction l1 as [|ev l1 IH]; [done|].
  destruct ev; simpl; by rewrite ?IH.
Qed.

Lemma calls_eq {A : Type} (m : M A) (s : OS) (new : list Event) :
  trace (snd (m s)) = trace s ++ new -> calls m s = new.
Proof. intros H. unfold calls. rewrite H. apply drop_app_length. Qed.

(** Membership in an explicit list of events, as a disjunction. *)
Ltac mem_cases H :=
  unfold path_calls in H; simpl in H;
  repeat (rewrite ?elem_of_cons, ?elem_of_app, ?elem_of_nil in H).

Section Facts.

Variable E : Env.

Lemma cmd_Run_spec (c : Cmd) (s : OS) :
  exists e out err f t,
    cmd_Run E c s =
      ((e, out, err),
       {| fs := f; now := t; trace := trace s ++ [EvRun c (fs s !! Dir c)] |}).
Proof.
  unfold cmd_Run, bind, ret, emit, get, set_fs, set_now. simpl.
  repeat case_match; simpl; eauto 10.
Qed.

Lemma under_refl (path : string) : under path path = true.
Proof. unfold under. by rewrite String.eqb_refl. Qed.

Lemma os_RemoveAll_spec (path : string) (s : OS) :
  exists err f,
    os_RemoveAll E path s =
      (err, {| fs := f; now := now s;
               trace := trace s ++ [EvRemoveAll path err] |}) /\
    (err = None -> forall x, under path x = true -> f !! x = None) /\
    (forall x v, f !! x = Some v -> fs s !! x = Some v) /\
    (forall x, under path x = false -> f !! x = fs s !! x).
Proof.
  unfold os_RemoveAll, bind, ret, emit, get, set_fs. simpl.
  destruct (remove_all E s path) as [kept msg].
  set (left := filter (fun kv : string * Z =>
                         under path kv.1 = false \/ kv.1 ∈ kept) (fs s)).
  eexists _, left. split; [reflexivity|]. split; [|split].
  - intros Herr x Hx. case_decide as Hempty; [|discriminate].
    destruct (left !! x) as [v|] eqn:Hl; [|done].
    assert (filter (fun kv : string * Z => under path kv.1 = true) left !! x
            = Some v) as Hin by (by apply map_lookup_filter_Some).
    rewrite Hempty in Hin. by rewrite lookup_empty in Hin.
  - intros x v Hl. by apply map_lookup_filter_Some in Hl as [Hl _].
  - intros x Hx. destruct (fs s !! x) as [v|] eqn:Hf.
    + apply map_lookup_filter_Some. split; [done|]. by left.
    + apply map_lookup_filter_None. by left.
Qed.

(** Every run of [ExecOsqueryLaunchctl] follows one of the four paths: its
    result and the calls it makes are those of the path, and its scratch
    directory is gone afterwards when [os.RemoveAll] reported no error. *)
Lemma ExecOsqueryLaunchctl_path (ctx : Context) (ts : Z)
    (username osqueryPath query : string) (s : OS) :
  let d := Duration_mul ts Second in
  let r := ExecOsqueryLaunchctl E ctx ts username osqueryPath query s in
  exists path,
    fst r = path_result username path /\
    trace (snd r) =
      trace s ++ path_calls (with_timeout ctx (now s) d) d
                   username osqueryPath query path /\
    (forall dir x, path_dir path = Some dir -> path_rm path = Some None ->
                   under dir x = true -> fs (snd r) !! x = None) /\
    (forall usr, path_user path = Some usr ->
                 exists s0, user_Lookup E s0 username = inr usr).
Proof.
  intros d r. subst r.
  unfold ExecOsqueryLaunchctl, defer, context_WithTimeout, cancel, Lookup,
    bind, ret, emit, get. simpl.
  fold d.
  set (s1 := {| fs := fs s; now := now s;
                trace := (trace s ++ [EvWithTimeout d]) ++ [EvLookup username] |}).
  destruct (user_Lookup E s1 username) as [err|usr] eqn:Hl.
  { exists (LookupFailed err). simpl. rewrite <- !app_assoc. simpl.
    repeat split; intros; discriminate. }
  unfold os_MkdirTemp, bind, ret, emit, get, set_fs. simpl.
  destruct (mkdir_temp E s1 EmptyString "osq-launchctl") as [err|dir] eqn:Hm.
  { exists (MkdirFailed usr err). simpl. rewrite <- !app_assoc. simpl.
    repeat split; intros; try discriminate. simplify_eq. eauto. }
  simpl.
  unfold os_Chmod, bind, ret, emit, get, set_fs. simpl.
  rewrite lookup_insert_eq.
  match goal with |- context [chmod_err E ?s2 dir perm_0o755] =>
    destruct (chmod_err E s2 dir perm_0o755) as [err|] eqn:Hc end.
  { simpl.
    match goal with |- context [os_RemoveAll E dir ?st] =>
      destruct (os_RemoveAll_spec dir st) as (rm & f & -> & Hgone & _) end.
    exists (ChmodFailed usr dir err rm). simpl.
    split; [done|]. split; [by rewrite <- !app_assoc|].
    split; [|intros; simplify_eq; eauto].
    intros dir' x [= <-] [= ->]. by apply Hgone. }
  simpl.
  match goal with |- context [cmd_Run E ?c ?s3] =>
    destruct (cmd_Run_spec c s3) as (e & out & err & f & t & Hrun);
    rewrite Hrun end.
  simpl. rewrite lookup_insert_eq.
  assert (Hrem : forall st (a : bytes * error),
    exists rm f',
      (let (_, s'') := os_RemoveAll E dir st in (a, s'')) =
        (a, {| fs := f'; now := now st;
               trace := trace st ++ [EvRemoveAll dir rm] |}) /\
      (rm = None -> forall x, under dir x = true -> f' !! x = None)).
  { intros st a. destruct (os_RemoveAll_spec dir st) as (rm & f' & -> & Hgone & _).
    eauto. }
  destruct e as [e|]; simpl;
    match goal with |- context [os_RemoveAll E dir ?st] =>
      match goal with |- context [let (_, s'') := os_RemoveAll E dir st in (?a, s'')] =>
        destruct (Hrem st a) as (rm & f' & -> & Hgone) end end;
    [exists (Ran usr dir (Some e) out err rm)|exists (Ran usr dir None out err rm)];
    simpl; (split; [done|]); (split; [by rewrite <- !app_assoc|]);
    (split; [|intros; simplify_eq; eauto]);
    intros dir' x [= <-] [= ->]; by apply Hgone.
Qed.

(** [ExecOsqueryLaunchctlParsed], case by case on the run and on the
    decoder. *)
Lemma ExecOsqueryLaunchctlParsed_unfold (ctx : Context) (ts : Z)
    (username osqueryPath query : string) (s : OS) :
  ExecOsqueryLaunchctlParsed E ctx ts username osqueryPath query s =
  match ExecOsqueryLaunchctl E ctx ts username osqueryPath query s with
  | ((_, Some err), s1) => (([], Some err), s1)
  | ((outBytes, None), s1) =>
      match json_Unmarshal E outBytes with
      | (osqueryResults, None) => ((osqueryResults, None), s1)
      | (_, Some err) =>
          (([], Some ("unmarshalling json: " +:+ err)),
           {| fs := fs s1; now := now s1;
              trace := trace s1 ++ [EvLog "error unmarshalling json"] |})
      end
  end.
Proof.
  unfold ExecOsqueryLaunchctlParsed, bind.
  destruct (ExecOsqueryLaunchctl E ctx ts username osqueryPath query s)
    as [[out [err|]] s1]; [done|].
  destruct (json_Unmarshal E out) as [rows [err|]]; done.
Qed.

(** One call of [ExecOsqueryLaunchctlParsed]: the path taken by the runner,
    then at most the log line of the decoder. *)
Lemma Parsed_path (ctx : Context) (ts : Z)
    (username osqueryPath query : string) (s : OS) :
  let d := Duration_mul ts Second in
  let r0 := ExecOsqueryLaunchctl E ctx ts username osqueryPath query s in
  let m := ExecOsqueryLaunchctlParsed E ctx ts username osqueryPath query in
  exists path log,
    fst r0 = path_result username path /\
    calls m s = path_calls (with_timeout ctx (now s) d) d
                  username osqueryPath query path ++ log /\
    trace (snd (m s)) = trace s ++ calls m s /\
    (log = [] \/ log = [EvLog "error unmarshalling json"]) /\
    (forall dir x, path_dir path = Some dir -> path_rm path = Some None ->
                   under dir x = true -> fs (snd (m s)) !! x = None) /\
    (forall usr, path_user path = Some usr ->
                 exists s0, user_Lookup E s0 username = inr usr).
Proof.
  intros d r0 m. subst r0 m.
  destruct (ExecOsqueryLaunchctl_path ctx ts username osqueryPath query s)
    as (path & Hres & Htr & Hfs & Husr).
  fold d in Htr.
  set (pc := path_calls (with_timeout ctx (now s) d) d
               username osqueryPath query path) in *.
  assert (Hcalls : forall log,
    trace (snd (ExecOsqueryLaunchctlParsed E ctx ts username osqueryPath query s))
      = trace s ++ pc ++ log ->
    calls (ExecOsqueryLaunchctlParsed E ctx ts username osqueryPath query) s
      = pc ++ log /\
    trace (snd (ExecOsqueryLaunchctlParsed E ctx ts username osqueryPath query s))
      = trace s
        ++ calls (ExecOsqueryLaunchctlParsed E ctx ts username osqueryPath query) s).
  { intros log Hlog. rewrite (calls_eq _ _ _ Hlog). by split. }
  exists path.
  rewrite ExecOsqueryLaunchctlParsed_unfold in Hcalls |- *.
  destruct (ExecOsqueryLaunchctl E ctx ts username osqueryPath query s)
    as [[out [err|]] s1]; simpl in *.
  { exists []. destruct (Hcalls []) as [? ?]; [by rewrite app_nil_r|]. auto 10. }
  destruct (json_Unmarshal E out) as [rows [err|]]; simpl in *.
  - exists [EvLog "error unmarshalling json"].
    destruct (Hcalls [EvLog "error unmarshalling json"]) as [? ?];
      [by rewrite Htr, <- app_assoc|]. auto 10.
  - exists []. destruct (Hcalls []) as [? ?]; [by rewrite app_nil_r|]. auto 10.
Qed.

Lemma Parsed_turn (ctx : Context) (t : Table) (username : string) (s : OS) :
  let r := ExecOsqueryLaunchctlParsed E ctx 5 username (osqueryd t) (query t) s in
  exists l,
    trace (snd r) = trace s ++ l /\
    Forall (turn_event E ctx t username) l /\
    timeouts l = [5 * Second].
Proof.
  intros r. subst r.
  destruct (Parsed_path ctx 5 username (osqueryd t) (query t) s)
    as (path & log & _ & Hcalls & Htr & Hlog & _ & Husr).
  change (Duration_mul 5 Second) with (5 * Second) in Hcalls.
  rewrite Hcalls in Htr. eexists. split; [exact Htr|]. split.
  - apply Forall_app. split.
    + apply Forall_forall. intros ev Hev. right. exists (now s), path. auto.
    + destruct Hlog as [-> | ->]; repeat constructor.
  - rewrite timeouts_app.
    destruct Hlog as [-> | ->]; by destruct path.
Qed.

(** ** The loops of generate *)

Lemma generate_rows_spec (user : string) (osqueryResults results res : list Row) :
  generate_rows user osqueryResults results = Return res ->
  exists ms, osqueryResults = Some <$> ms /\ res = results ++ (tag user <$> ms).
Proof.
  revert results. induction osqueryResults as [|[m|] rows IH]; intros results H.
  - exists []. simpl in *. injection H as <-. by rewrite app_nil_r.
  - simpl in H. apply IH in H as (ms & -> & ->).
    exists (m :: ms). by rewrite <- app_assoc.
  - discriminate.
Qed.

Lemma generate_rows_total (user : string) (ms : list (gmap string string))
    (results : list Row) :
  generate_rows user (Some <$> ms) results = Return (results ++ (tag user <$> ms)).
Proof.
  revert results. induction ms as [|m ms IH]; intros results; simpl.
  - by rewrite app_nil_r.
  - rewrite IH. by rewrite <- app_assoc.
Qed.

(** A user whose run-and-decode step fails is skipped. *)
Lemma generate_users_skip (t : Table) (ctx : Context) (user : string)
    (users : list string) (results : list Row) (s : OS) :
  let r := ExecOsqueryLaunchctlParsed E ctx 5 user (osqueryd t) (query t) s in
  is_Some (snd (fst r)) ->
  generate_users E t ctx (user :: users) results s =
  generate_users E t ctx users results (snd r).
Proof.
  simpl. unfold bind.
  destruct (ExecOsqueryLaunchctlParsed E ctx 5 user (osqueryd t) (query t) s)
    as [[rows err] s1]. simpl. by intros [e ->].
Qed.

(** A user whose step succeeds contributes its rows, tagged. *)
Lemma generate_users_keep (t : Table) (ctx : Context) (user : string)
    (users : list string) (results : list Row) (s : OS)
    (ms : list (gmap string string)) :
  let r := ExecOsqueryLaunchctlParsed E ctx 5 user (osqueryd t) (query t) s in
  fst r = (Some <$> ms, None) ->
  generate_users E t ctx (user :: users) results s =
  generate_users E t ctx users (results ++ (tag user <$> ms)) (snd r).
Proof.
  simpl. unfold bind.
  destruct (ExecOsqueryLaunchctlParsed E ctx 5 user (osqueryd t) (query t) s)
    as [[rows err] s1]. simpl. intros [= -> ->].
  by rewrite generate_rows_total.
Qed.

(** The rows returned by the outer loop: those it started with, then rows
    tagged with one of the users. *)
Lemma generate_users_rows (t : Table) (ctx : Context) (users : list string) :
  forall (results rows : list Row) (s s' : OS),
    generate_users E t ctx users results s = (Return rows, s') ->
    exists added,
      rows = results ++ added /\
      Forall (fun row => exists m u, row = Some m /\ u ∈ users /\
                                     m !! "user" = Some u) added.
Proof.
  induction users as [|user users IH]; intros results rows s s' H.
  - injection H as <- <-. exists []. by rewrite app_nil_r.
  - simpl in H. unfold bind in H.
    destruct (ExecOsqueryLaunchctlParsed E ctx 5 user (osqueryd t) (query t) s)
      as [[osq err] s1].
    assert (Hweak : forall added : list Row,
      Forall (fun row => exists m u, row = Some m /\ u ∈ users /\
                                     m !! "user" = Some u) added ->
      Forall (fun row => exists m u, row = Some m /\ u ∈ user :: users /\
                                     m !! "user" = Some u) added).
    { intros added Hadd. eapply Forall_impl; [exact Hadd|].
      intros row (m & u & ? & ? & ?).
      exists m, u. repeat split; try done. by apply list_elem_of_further. }
    destruct err as [err|].
    { apply IH in H as (added & -> & Hadd). exists added. auto. }
    destruct (generate_rows user osq results) as [res|msg] eqn:Hrows;
      [|discriminate].
    apply generate_rows_spec in Hrows as (ms & -> & ->).
    apply IH in H as (added & -> & Hadd).
    exists ((tag user <$> ms) ++ added). split; [by rewrite app_assoc|].
    apply Forall_app. split; [|auto].
    apply Forall_fmap, Forall_forall. intros m _. simpl.
    exists (<["user" := user]> m), user.
    split; [done|]. split; [apply list_elem_of_here|apply lookup_insert_eq].
Qed.

(** The calls of the outer loop: one turn of the runner per user reached,
    each under a timeout of five seconds. *)
Lemma generate_users_calls (t : Table) (ctx : Context) (users : list string) :
  forall (results : list Row) (s : OS),
    exists l,
      trace (snd (generate_users E t ctx users results s)) = trace s ++ l /\
      Forall (fun ev => exists u, u ∈ users /\ turn_event E ctx t u ev) l /\
      exists n, (n <= length users)%nat /\
                timeouts l = replicate n (5 * Second).
Proof.
  induction users as [|user users IH]; intros results s.
  - exists []. simpl. rewrite app_nil_r. repeat split; [constructor|].
    exists 0%nat. split; [lia|done].
  - simpl. unfold bind.
    destruct (Parsed_turn ctx t user s) as (l1 & Htr1 & Hev1 & Ht1).
    destruct (ExecOsqueryLaunchctlParsed E ctx 5 user (osqueryd t) (query t) s)
      as [[osq err] s1]. simpl in Htr1.
    assert (Hhere : Forall (fun ev => exists u, u ∈ user :: users /\
                                                turn_event E ctx t u ev) l1).
    { eapply Forall_impl; [exact Hev1|]. intros ev Hev. exists user.
      split; [apply list_elem_of_here|done]. }
    assert (Hcont : forall res,
      exists l,
        trace (snd (generate_users E t ctx users res s1)) = trace s ++ l /\
        Forall (fun ev => exists u, u ∈ user :: users /\
                                    turn_event E ctx t u ev) l /\
        exists n, (n <= length (user :: users))%nat /\
                  timeouts l = replicate n (5 * Second)).
    { intros res. destruct (IH res s1) as (l2 & Htr2 & Hev2 & n & Hn & Ht2).
      exists (l1 ++ l2). rewrite Htr2, Htr1, <- app_assoc. split; [done|].
      split.
      - apply Forall_app. split; [done|].
        eapply Forall_impl; [exact Hev2|].
        intros ev (u & Hu & Hev). exists u.
        split; [by apply list_elem_of_further|done].
      - exists (S n). split; [simpl; lia|].
        by rewrite timeouts_app, Ht1, Ht2. }
    assert (Hstop :
      exists l,
        trace s1 = trace s ++ l /\
        Forall (fun ev => exists u, u ∈ user :: users /\
                                    turn_event E ctx t u ev) l /\
        exists n, (n <= length (user :: users))%nat /\
                  timeouts l = replicate n (5 * Second)).
    { exists l1. repeat split; try done. exists 1%nat. split; [simpl; lia|done]. }
    destruct err as [err|]; [apply Hcont|].
    destruct (generate_rows user osq results) as [res|msg]; [apply Hcont|].
    apply Hstop.
Qed.

(** The calls of [generate] are those of its loop. *)
Lemma generate_calls (t : Table) (ctx : Context) (qc : QueryContext) (s : OS) :
  let users := GetConstraints E qc "user" allowedUsernameCharacters in
  exists l,
    trace (snd (generate E t ctx qc s)) = trace s ++ l /\
    Forall (fun ev => exists u, u ∈ users /\ turn_event E ctx t u ev) l /\
    exists n, (n <= length users)%nat /\
              timeouts l = replicate n (5 * Second).
Proof.
  intros users. unfold generate. fold users.
  destruct (length users =? 0)%nat.
  { exists []. simpl. rewrite app_nil_r. repeat split; [constructor|].
    exists 0%nat. split; [lia|done]. }
  unfold bind.
  destruct (generate_users_calls t ctx users [] s) as (l & Htr & Hev & Hn).
  exists l.
  destruct (generate_users E t ctx users [] s) as [[rows|msg] s'];
    simpl in *; auto.
Qed.

(** With a user to run for, [generate] ends like its loop. *)
Lemma generate_nonempty (t : Table) (ctx : Context) (qc : QueryContext) (s : OS) :
  let users := GetConstraints E qc "user" allowedUsernameCharacters in
  users <> [] ->
  generate E t ctx qc s =
  match generate_users E t ctx users [] s with
  | (Return results, s') => (Return (results, None), s')
  | (Panic msg, s') => (Panic msg, s')
  end.
Proof.
  intros users Hne. unfold generate. fold users.
  destruct (length users =? 0)%nat eqn:Hlen.
  { apply Nat.eqb_eq in Hlen. by destruct users. }
  unfold bind.
  by destruct (generate_users E t ctx users [] s) as [[rows|msg] s'].
Qed.

(** The loop over two lists in a row. *)
Lemma generate_users_append (t : Table) (ctx : Context)
    (users1 users2 : list string) :
  forall results s,
    generate_users E t ctx (users1 ++ users2) results s =
    match generate_users E t ctx users1 results s with
    | (Return r, s1) => generate_users E t ctx users2 r s1
    | (Panic msg, s1) => (Panic msg, s1)
    end.
Proof.
  induction users1 as [|u users1 IH]; intros results s; simpl; [done|].
  unfold bind.
  destruct (ExecOsqueryLaunchctlParsed E ctx 5 u (osqueryd t) (query t) s)
    as [[osq [err|]] s1]; [apply IH|].
  destruct (generate_rows u osq results) as [r|msg]; [apply IH|done].
Qed.

(** The log of the loop is the log of its turns, one after the other; when
    the loop returns, there was one turn per user. *)
Lemma generate_users_turns (t : Table) (ctx : Context) (users : list string) :
  forall results s,
    let g := generate_users E t ctx users results s in
    let ts := turns E t ctx users results s in
    trace (snd g) =
      trace s ++ concat (map (fun us : string * OS =>
                   calls (ExecOsqueryLaunchctlParsed E ctx 5 us.1
                            (osqueryd t) (query t)) us.2) ts) /\
    match fst g with
    | Return _ => map fst ts = users
    | Panic _ => True
    end.
Proof.
  induction users as [|u users IH]; intros results s; simpl.
  { by rewrite app_nil_r. }
  unfold bind.
  destruct (Parsed_path ctx 5 u (osqueryd t) (query t) s)
    as (_ & _ & _ & _ & Htr1 & _).
  set (l1 := calls (ExecOsqueryLaunchctlParsed E ctx 5 u (osqueryd t) (query t)) s)
    in *.
  destruct (ExecOsqueryLaunchctlParsed E ctx 5 u (osqueryd t) (query t) s)
    as [[osq err] s1]. simpl in Htr1 |- *.
  assert (Hrest : forall res,
    let g := generate_users E t ctx users res s1 in
    let ts := turns E t ctx users res s1 in
    trace (snd g) =
      trace s ++ l1 ++ concat (map (fun us : string * OS =>
                   calls (ExecOsqueryLaunchctlParsed E ctx 5 us.1
                            (osqueryd t) (query t)) us.2) ts) /\
    match fst g with
    | Return _ => u :: map fst ts = u :: users
    | Panic _ => True
    end).
  { intros res. destruct (IH res s1) as [Htr2 Hus]. simpl.
    rewrite Htr2, Htr1, <- app_assoc. split; [done|].
    destruct (generate_users E t ctx users res s1).1; [by f_equal|done]. }
  destruct err as [err|]; [apply Hrest|].
  destruct (generate_rows u osq results) as [res|msg]; [apply Hrest|].
  simpl. by rewrite app_nil_r.
Qed.

End Facts.

(* ===================================================================== *)
(** * Properties of the table *)
(* ===================================================================== *)

Lemma all_fail_returns (E : Env) (t : Table) (ctx : Context)
    (users : list string) :
  forall (results : list Row) (s : OS),
    all_fail E t ctx users s ->
    fst (generate_users E t ctx users results s) = Return results.
Proof.
  induction users as [|user users IH]; intros results s Hall; [done|].
  destruct Hall as [Hfail Hall].
  rewrite generate_users_skip by done. by apply IH.
Qed.

(** C1. When no username comes out of the query constraints, generate
    fails the whole call: it returns no rows and the error saying that the
    table requires a user, and it makes no call to the outside. *)
Theorem generate_requires_user (E : Env) (t : Table) (ctx : Context)
    (queryContext : QueryContext) (s : OS) :
  GetConstraints E queryContext "user" allowedUsernameCharacters = [] ->
  generate E t ctx queryContext s =
  (Return ([], Some ("The " +:+ tablename t +:+ " table requires a user")), s).
Proof. intros H. unfold generate. by rewrite H. Qed.

Lemma generate_requires_user_witness :
  GetConstraints Demo.env Demo.no_constraint "user" allowedUsernameCharacters = []
  /\ generate Demo.env Demo.tbl Demo.background Demo.no_constraint Demo.boot =
     (Return ([], Some "The authdb table requires a user"), Demo.boot).
Proof.
  split; [reflexivity|].
  apply (generate_requires_user Demo.env Demo.tbl Demo.background
           Demo.no_constraint Demo.boot).
  reflexivity.
Defined.

(** C2. With a non-empty username list, a username whose run-and-decode
    step returns an error is skipped, wherever it stands in the list:
    generate keeps the rows collected before it, goes on with the remaining
    usernames from the state the failed turn left, and reports no error;
    when every username fails, generate returns an empty row sequence and
    a nil error. *)
Theorem generate_skips_failed_users (E : Env) (t : Table) (ctx : Context)
    (queryContext : QueryContext) (s : OS) :
  let users := GetConstraints E queryContext "user" allowedUsernameCharacters in
  users <> [] ->
  (forall (pre : list string) (user : string) (post : list string)
          (r : list Row) (s1 : OS),
     let turn := ExecOsqueryLaunchctlParsed E ctx 5 user (osqueryd t) (query t) s1 in
     users = pre ++ user :: post ->
     generate_users E t ctx pre [] s = (Return r, s1) ->
     is_Some (snd (fst turn)) ->
     generate E t ctx queryContext s =
     match generate_users E t ctx post r (snd turn) with
     | (Return rows, s') => (Return (rows, None), s')
     | (Panic msg, s') => (Panic msg, s')
     end) /\
  (forall (user : string) (rest : list string) (results : list Row) (s1 : OS),
     let r := ExecOsqueryLaunchctlParsed E ctx 5 user (osqueryd t) (query t) s1 in
     is_Some (snd (fst r)) ->
     generate_users E t ctx (user :: rest) results s1 =
     generate_users E t ctx rest results (snd r)) /\
  (all_fail E t ctx users s ->
   fst (generate E t ctx queryContext s) = Return ([], None)).
Proof.
  intros users Hne. split; [|split].
  - intros pre user post r s1 turn Husers Hpre Hfail. subst turn.
    rewrite generate_nonempty by done. fold users.
    rewrite Husers, generate_users_append, Hpre.
    by rewrite generate_users_skip.
  - intros user rest results s1. apply generate_users_skip.
  - intros Hall. rewrite generate_nonempty by done. fold users.
    pose proof (all_fail_returns E t ctx users [] s Hall) as Hret.
    destruct (generate_users E t ctx users [] s) as [[rows|msg] s'];
      simpl in *; congruence.
Qed.

Lemma generate_skips_failed_users_witness :
  GetConstraints Demo.env (Demo.where_user ["alice"; "bob"; "carol"]) "user"
    allowedUsernameCharacters <> []
  /\ fst (generate Demo.env Demo.tbl Demo.background
            (Demo.where_user ["alice"; "bob"; "carol"]) Demo.boot)
     = Return ([Some (<["user" := "alice"]> {[ "key" := "v" ]});
                Some (<["user" := "carol"]>
                        (<["user" := "root"]> {[ "key" := "v" ]}))], None)
  /\ fst (generate Demo.env Demo.tbl Demo.background
            (Demo.where_user ["bob"; "erin"]) Demo.boot) = Return ([], None).
Proof.
  split; [by vm_compute|]. split.
  - pose proof (generate_skips_failed_users Demo.env Demo.tbl Demo.background
                  (Demo.where_user ["alice"; "bob"; "carol"]) Demo.boot) as H.
    destruct H as (Hskip & _); [by vm_compute|].
    rewrite (Hskip ["alice"] "bob" ["carol"]
               [Some (<["user" := "alice"]> {[ "key" := "v" ]})]
               (snd (generate_users Demo.env Demo.tbl Demo.background
                       ["alice"] [] Demo.boot))).
    + by vm_compute.
    + by vm_compute.
    + by vm_compute.
    + vm_compute. by eexists.
  - apply (generate_skips_failed_users Demo.env Demo.tbl Demo.background
             (Demo.where_user ["bob"; "erin"]) Demo.boot).
    + by vm_compute.
    + vm_compute. repeat split; eexists; reflexivity.
Defined.

(** C3. Every row of the sequence returned by generate has a user key, and
    its value is one of the usernames extracted from the query
    constraints. *)
Theorem generate_rows_user_member (E : Env) (t : Table) (ctx : Context)
    (queryContext : QueryContext) (s : OS) (rows : list Row) (err : error)
    (row : Row) :
  fst (generate E t ctx queryContext s) = Return (rows, err) ->
  row ∈ rows ->
  exists m u,
    row = Some m /\ m !! "user" = Some u /\
    u ∈ GetConstraints E queryContext "user" allowedUsernameCharacters.
Proof.
  intros Hgen Hrow. unfold generate in Hgen.
  set (users := GetConstraints E queryContext "user" allowedUsernameCharacters)
    in *.
  destruct (length users =? 0)%nat.
  { simpl in Hgen. injection Hgen as <- <-. by apply elem_of_nil in Hrow. }
  unfold bind in Hgen.
  destruct (generate_users E t ctx users [] s) as [[res|msg] s'] eqn:Hloop;
    simpl in Hgen; [|discriminate].
  injection Hgen as <- <-.
  apply generate_users_rows in Hloop as (added & -> & Hadd).
  simpl in Hrow. rewrite Forall_forall in Hadd.
  destruct (Hadd row Hrow) as (m & u & ? & ? & ?). eauto.
Qed.

Lemma generate_rows_user_member_witness :
  exists m u,
    Some (<["user" := "alice"]> ({[ "key" := "v" ]} : gmap string string))
      = Some m /\
    m !! "user" = Some u /\
    u ∈ GetConstraints Demo.env (Demo.where_user ["alice"; "bob"]) "user"
          allowedUsernameCharacters.
Proof.
  apply (generate_rows_user_member Demo.env Demo.tbl Demo.background
           (Demo.where_user ["alice"; "bob"]) Demo.boot
           [Some (<["user" := "alice"]> {[ "key" := "v" ]})] None).
  - by vm_compute.
  - apply list_elem_of_here.
Defined.




(** C5, as written, fails: when osquery is started for alice, its working
    directory has mode 0o755, which lets other users read and enter it. *)
Lemma workspace_is_world_readable :
  ~ workspace_denies_others Demo.env Demo.background 5 "alice"
      (osqueryd Demo.tbl) (query Demo.tbl) Demo.boot.
Proof.
  intros H.
  specialize (H (launchctl_cmd (with_timeout Demo.background 0 (5 * Second))
                   (Demo.mkuser "501" "alice") (osqueryd Demo.tbl)
                   (query Demo.tbl) "/tmp/osq-launchctl2051621813")
                perm_0o755).
  assert (Z.land perm_0o755 other_bits = 5) as Hbits by reflexivity.
  rewrite H in Hbits; [discriminate|].
  vm_compute. do 4 apply list_elem_of_further. apply list_elem_of_here.
Qed.

(** C5, amended. The scratch workspace is created by os.MkdirTemp and its
    mode is then set to 0o755 before the subprocess runs in it: the owner
    has every right, the group and the others may read and enter the
    directory but not write to it. *)
Theorem workspace_mode_0o755 (E : Env) (ctx : Context) (ts : Z)
    (username osqueryPath query : string) (s : OS) (c : Cmd) (dirmode : option Z) :
  let l := calls (ExecOsqueryLaunchctl E ctx ts username osqueryPath query) s in
  EvRun c dirmode ∈ l ->
  dirmode = Some perm_0o755 /\
  (exists pre post,
     l = pre ++ [EvMkdirTemp "osq-launchctl" (inr (Dir c));
                 EvChmod (Dir c) perm_0o755;
                 EvRun c dirmode] ++ post) /\
  Z.land perm_0o755 perm_0o700 = perm_0o700 /\
  Z.land perm_0o755 group_bits = 5 * 8 /\
  Z.land perm_0o755 other_bits = other_r + other_x /\
  Z.land perm_0o755 other_w = 0.
Proof.
  intros l Hin. subst l.
  destruct (ExecOsqueryLaunchctl_path E ctx ts username osqueryPath query s)
    as (path & _ & Htr & _).
  apply calls_eq in Htr. rewrite Htr in Hin |- *.
  set (d := Duration_mul ts Second) in *.
  assert (exists usr dir e out errb rm,
            path = Ran usr dir e out errb rm /\
            c = launchctl_cmd (with_timeout ctx (now s) d) usr osqueryPath
                  query dir /\
            dirmode = Some perm_0o755)
    as (usr & dir & e & out & errb & rm & -> & -> & ->).
  { clear -Hin. destruct path; mem_cases Hin;
      intuition (try discriminate); simplify_eq; eauto 10. }
  split; [done|]. split; [|done].
  exists [EvWithTimeout d; EvLookup username], [EvRemoveAll dir rm; EvCancel].
  reflexivity.
Qed.

Lemma workspace_mode_0o755_witness :
  Z.land perm_0o755 other_bits = other_r + other_x /\
  Z.land perm_0o755 other_w = 0.
Proof.
  pose proof (workspace_mode_0o755 Demo.env Demo.background 5 "alice"
           (osqueryd Demo.tbl) (query Demo.tbl) Demo.boot
           (launchctl_cmd (with_timeout Demo.background 0 (5 * Second))
                   (Demo.mkuser "501" "alice") (osqueryd Demo.tbl)
                   (query Demo.tbl) "/tmp/osq-launchctl2051621813")
           (Some perm_0o755)) as H.
  destruct H as (_ & _ & _ & _ & H1 & H2).
  - vm_compute. do 4 apply list_elem_of_further. apply list_elem_of_here.
  - exact (conj H1 H2).
Defined.




(** C7. Decoding is atomic: ExecOsqueryLaunchctlParsed returns either the
    whole sequence of rows decoded from the captured output together with a
    nil error, or an error and no rows; what a failed json.Unmarshal left
    in its target is never returned. *)
Theorem decode_atomic (E : Env) (ctx : Context) (ts : Z)
    (username osqueryPath query : string) (s : OS) :
  let '(outBytes, err0) :=
    fst (ExecOsqueryLaunchctl E ctx ts username osqueryPath query s) in
  let '(osqueryResults, err) :=
    fst (ExecOsqueryLaunchctlParsed E ctx ts username osqueryPath query s) in
  match err0, json_Unmarshal E outBytes with
  | Some e, _ => osqueryResults = [] /\ err = Some e
  | None, (rows, None) => osqueryResults = rows /\ err = None
  | None, (_, Some e) =>
      osqueryResults = [] /\ err = Some ("unmarshalling json: " +:+ e)
  end /\
  (err = None \/ osqueryResults = []).
Proof.
  rewrite ExecOsqueryLaunchctlParsed_unfold.
  destruct (ExecOsqueryLaunchctl E ctx ts username osqueryPath query s)
    as [[out [e|]] s1]; simpl; [auto|].
  destruct (json_Unmarshal E out) as [rows [e|]]; simpl; auto.
Qed.

(** ** The allowlist *)

Lemma existsb_eqb_elem_of (c : ascii) (l : list ascii) :
  existsb (Ascii.eqb c) l = true <-> c ∈ l.
Proof.
  rewrite existsb_exists, list_elem_of_In. split.
  - intros (x & Hx & Heq). apply Ascii.eqb_eq in Heq. by subst.
  - intros Hc. exists c. split; [done|apply Ascii.eqb_refl].
Qed.

Lemma allowedUsernameCharacters_class (c : ascii) :
  existsb (Ascii.eqb c) (list_ascii_of_string allowedUsernameCharacters)
  = is_username_char c.
Proof.
  destruct c as [b0 b1 b2 b3 b4 b5 b6 b7].
  destruct b0, b1, b2, b3, b4, b5, b6, b7; reflexivity.
Qed.

Lemma only_allowed_spec (allowed value : string) :
  only_allowed allowed value = true <->
  forall c, c ∈ list_ascii_of_string value -> c ∈ list_ascii_of_string allowed.
Proof.
  unfold only_allowed. rewrite forallb_forall. split.
  - intros H c Hc. apply existsb_eqb_elem_of, H. by apply list_elem_of_In.
  - intros H c Hc. apply existsb_eqb_elem_of, H. by apply list_elem_of_In.
Qed.

Lemma tablehelpers_GetConstraints_spec (queryContext : QueryContext)
    (columnName allowed u : string) :
  u ∈ tablehelpers_GetConstraints queryContext columnName allowed <->
  (exists q k, qc_Constraints queryContext !! columnName = Some q /\
               k ∈ Constraints q /\ Expression k = u) /\
  (forall c, c ∈ list_ascii_of_string u -> c ∈ list_ascii_of_string allowed).
Proof.
  unfold tablehelpers_GetConstraints.
  destruct (qc_Constraints queryContext !! columnName) as [q|].
  - rewrite elem_of_remove_dups, list_elem_of_In, filter_In, <- list_elem_of_In.
    rewrite only_allowed_spec. split.
    + intros [Hin Hall]. split; [|done].
      apply list_elem_of_In, in_map_iff in Hin as (k & Hk & Hin).
      exists q, k. by rewrite list_elem_of_In.
    + intros [(q' & k & [= <-] & Hk & <-) Hall]. split; [|done].
      apply list_elem_of_In, in_map. by apply list_elem_of_In.
  - split; [by intros ?%elem_of_nil|]. by intros [(q & k & ? & _) _].
Qed.

(** C8. With the constraint helper of the spec, the usernames generate
    works on are the values of the user constraints filtered against an
    allowlist which consists exactly of letters, digits, underscore,
    hyphen, period and space: a value with any other character is not in
    the username set; identity lookup is only ever asked about usernames of
    that set, and the command line of every subprocess is made of fixed
    words, the uid of such a user, the osquery path and the query of the
    table. *)
Theorem usernames_filtered (E : Env) (t : Table) (ctx : Context)
    (queryContext : QueryContext) (s : OS) :
  GetConstraints E = tablehelpers_GetConstraints ->
  let users := GetConstraints E queryContext "user" allowedUsernameCharacters in
  let l := calls (generate E t ctx queryContext) s in
  (forall c : ascii,
     c ∈ list_ascii_of_string allowedUsernameCharacters <->
     is_username_char c = true) /\
  (forall u : string,
     u ∈ users <->
     (exists q k, qc_Constraints queryContext !! "user" = Some q /\
                  k ∈ Constraints q /\ Expression k = u) /\
     (forall c, c ∈ list_ascii_of_string u -> is_username_char c = true)) /\
  (forall u : string, EvLookup u ∈ l -> u ∈ users) /\
  (forall (c : Cmd) (dirmode : option Z),
     EvRun c dirmode ∈ l ->
     exists u usr s0,
       u ∈ users /\ user_Lookup E s0 u = inr usr /\
       Args c = [ "launchctl"; "asuser"; Uid usr; osqueryd t;
                  "--config_path"; "/dev/null"; "--disable_events";
                  "--disable_database"; "--disable_audit"; "--ephemeral";
                  "-S"; "--json"; query t ]).
Proof.
  intros HE users l.
  assert (Hclass : forall c : ascii,
            c ∈ list_ascii_of_string allowedUsernameCharacters <->
            is_username_char c = true).
  { intros c. by rewrite <- existsb_eqb_elem_of, allowedUsernameCharacters_class. }
  split; [exact Hclass|]. split.
  { intros u. subst users. rewrite HE, tablehelpers_GetConstraints_spec.
    split; intros [Hk Hc]; (split; [exact Hk|]); intros c Hin;
      apply Hclass; auto. }
  destruct (generate_calls E t ctx queryContext s) as (l' & Htr & Hev & _).
  apply calls_eq in Htr. fold l in Htr. subst l'. fold users in Hev.
  rewrite Forall_forall in Hev. split.
  - intros u Hin. destruct (Hev _ Hin) as (u' & Hu' & [Hlog | Hturn]);
      [discriminate|].
    destruct Hturn as (now0 & path & Hpath & _).
    assert (u = u') as ->; [|done].
    clear -Hpath. destruct path; mem_cases Hpath;
      intuition (try discriminate; by simplify_eq).
  - intros c dm Hin. destruct (Hev _ Hin) as (u' & Hu' & [Hlog | Hturn]);
      [discriminate|].
    destruct Hturn as (now0 & path & Hpath & Husr).
    assert (exists usr dir, path_user path = Some usr /\
              c = launchctl_cmd (with_timeout ctx now0 (5 * Second)) usr
                    (osqueryd t) (query t) dir) as (usr & dir & Hp & ->).
    { clear -Hpath. destruct path; mem_cases Hpath;
        intuition (try discriminate); simplify_eq; eauto. }
    destruct (Husr usr Hp) as [s0 Hs0]. exists u', usr, s0. by simpl.
Qed.

Lemma usernames_filtered_witness :
  GetConstraints Demo.env = tablehelpers_GetConstraints /\
  ~ EvLookup "alice; rm -rf /"
      ∈ calls (generate Demo.env Demo.tbl Demo.background
                 (Demo.where_user ["alice; rm -rf /"; "alice"])) Demo.boot.
Proof.
  split; [reflexivity|]. intros Hin.
  pose proof (usernames_filtered Demo.env Demo.tbl Demo.background
                (Demo.where_user ["alice; rm -rf /"; "alice"]) Demo.boot
                eq_refl) as (_ & _ & Hlookup & _).
  apply Hlookup in Hin. vm_compute in Hin.
  apply list_elem_of_singleton in Hin. discriminate.
Defined.

(** C9. Whatever the name, the osquery path, the query and the columns the
    table plugin was built with, generate gives every username it processes
    a deadline of five seconds: the calls of generate are those of its
    turns, one per username reached and one per username when it returns;
    each turn opens with a context.WithTimeout of 5 * time.Second followed
    by the lookup of its username and asks for no other timeout, and a
    subprocess started in the turn runs under the context derived at the
    start of the turn, whose deadline is five seconds after that moment or
    the deadline of the caller if that is earlier. *)
Theorem timeout_fixed (E : Env) (tablename osqueryd osqueryQuery : string)
    (columns : list ColumnDefinition) (ctx : Context)
    (queryContext : QueryContext) (s : OS) :
  let p := TablePlugin E tablename osqueryd osqueryQuery columns in
  let t := {| osqueryd := osqueryd; query := osqueryQuery;
              tablename := tablename |} in
  let users := GetConstraints E queryContext "user" allowedUsernameCharacters in
  let l := calls (plugin_generate p ctx queryContext) s in
  let ts := turns E t ctx users [] s in
  let turn_calls := fun us : string * OS =>
    calls (ExecOsqueryLaunchctlParsed E ctx 5 us.1 osqueryd osqueryQuery) us.2 in
  Duration_mul 5 Second = 5000000000 /\
  (exists n, (n <= length users)%nat /\
             timeouts l = replicate n (Duration_mul 5 Second)) /\
  Forall (fun ev => match ev with
                    | EvRun c _ =>
                        exists now0,
                          cmd_ctx c = with_timeout ctx now0 (Duration_mul 5 Second)
                    | _ => True
                    end) l /\
  l = concat (map turn_calls ts) /\
  match users with
  | [] => ts = []
  | user :: _ => exists rest, ts = (user, s) :: rest
  end /\
  match fst (plugin_generate p ctx queryContext s) with
  | Return _ => map fst ts = users
  | Panic _ => True
  end /\
  timeouts l = replicate (length ts) 5000000000 /\
  Forall (fun us : string * OS =>
            exists rest,
              turn_calls us = EvWithTimeout 5000000000 :: EvLookup us.1 :: rest /\
              timeouts rest = [] /\ lookups rest = [] /\
              Forall (fun c =>
                        cmd_ctx c = with_timeout ctx (now us.2) 5000000000 /\
                        Deadline (cmd_ctx c) =
                          Some (match Deadline ctx with
                                | Some d => Z.min d (now us.2 + 5000000000)
                                | None => now us.2 + 5000000000
                                end))
                     (runs rest)) ts.
Proof.
  intros p t users l ts turn_calls. split; [reflexivity|].
  subst p l. simpl plugin_generate. fold t.
  assert (Hturn : forall us : string * OS,
    exists rest,
      turn_calls us = EvWithTimeout 5000000000 :: EvLookup us.1 :: rest /\
      timeouts rest = [] /\ lookups rest = [] /\
      Forall (fun c =>
                cmd_ctx c = with_timeout ctx (now us.2) 5000000000 /\
                Deadline (cmd_ctx c) =
                  Some (match Deadline ctx with
                        | Some d => Z.min d (now us.2 + 5000000000)
                        | None => now us.2 + 5000000000
                        end))
             (runs rest)).
  { intros [u s0]. subst turn_calls. simpl.
    destruct (Parsed_path E ctx 5 u osqueryd osqueryQuery s0)
      as (path & log & _ & -> & _ & Hlog & _).
    change (Duration_mul 5 Second) with 5000000000.
    unfold path_calls. rewrite <- !app_comm_cons. eexists. split; [reflexivity|].
    rewrite timeouts_app, lookups_app.
    destruct Hlog as [-> | ->]; destruct path; simpl; repeat split;
      repeat constructor. }
  assert (Htimes : forall l0 : list (string * OS),
            timeouts (concat (map turn_calls l0))
            = replicate (length l0) 5000000000).
  { induction l0 as [|us l0 IH]; [done|]. simpl.
    rewrite timeouts_app, IH.
    destruct (Hturn us) as (rest & -> & Hrest & _). simpl. by rewrite Hrest. }
  assert (Hcalls : calls (generate E t ctx queryContext) s
                   = concat (map turn_calls ts) /\
                   match fst (generate E t ctx queryContext s) with
                   | Return _ => map fst ts = users
                   | Panic _ => True
                   end).
  { unfold calls, generate. fold users. subst ts.
    destruct (length users =? 0)%nat eqn:Hlen.
    { apply Nat.eqb_eq in Hlen. destruct users; [|done]. simpl.
      by rewrite drop_all. }
    unfold bind.
    destruct (generate_users_turns E t ctx users [] s) as [Htr Hus].
    simpl in Htr, Hus.
    destruct (generate_users E t ctx users [] s) as [[rows|msg] s'];
      simpl in *; by rewrite Htr, drop_app_length. }
  destruct Hcalls as [Hcalls Hus].
  destruct (generate_calls E t ctx queryContext s) as (l & Htr & Hev & Hn).
  apply calls_eq in Htr.
  split; [by rewrite Htr|]. split.
  { rewrite Htr. eapply Forall_impl; [exact Hev|].
    intros ev (u & _ & Hturn'). destruct ev; try done.
    destruct Hturn' as [Hlog | (now0 & path & Hpath & _)]; [discriminate|].
    exists now0. clear -Hpath. destruct path; mem_cases Hpath;
      intuition (try discriminate); by simplify_eq. }
  split; [exact Hcalls|]. split.
  { subst ts. by destruct users; [|eexists]. }
  split; [exact Hus|]. split.
  { rewrite Hcalls. apply Htimes. }
  apply Forall_forall. intros us _. apply Hturn.
Qed.



(* ===================================================================== *)
(** * Further properties of the runner *)
(* ===================================================================== *)

Lemma prefix_app (a b : string) : String.prefix a (a +:+ b) = true.
Proof.
  induction a as [|c a IH]; simpl.
  - by destruct b.
  - by destruct (ascii_dec c c).
Qed.

(** The deadline of a derived context is never later than that of its
    parent, nor than [d] after the time it was derived at. *)
Lemma with_timeout_deadline (ctx : Context) (t d : Z) :
  exists dl,
    Deadline (with_timeout ctx t d) = Some dl /\ dl <= t + d /\
    match Deadline ctx with
    | Some p => dl = Z.min p (t + d)
    | None => dl = t + d
    end.
Proof.
  unfold with_timeout. simpl. destruct (Deadline ctx) as [p|]; eexists;
    (split; [reflexivity|]); split; try done; lia.
Qed.

Section Runner.

Variable E : Env.

Lemma cmd_Run_expired (c : Cmd) (s : OS) :
  expired (cmd_ctx c) (now s) = true ->
  fst (cmd_Run E c s) = (Some "context deadline exceeded", [], []) /\
  now (snd (cmd_Run E c s)) = now s.
Proof.
  intros H. unfold cmd_Run, bind, ret, emit, get. simpl. by rewrite H.
Qed.

Lemma cmd_Run_slow (c : Cmd) (s : OS) (dl : Z) :
  Deadline (cmd_ctx c) = Some dl ->
  dl < now s + Z.max 0 (duration (spawn E s c)) ->
  is_Some (fst (fst (fst (cmd_Run E c s)))).
Proof.
  intros Hdl Hslow.
  unfold cmd_Run, expired, bind, ret, emit, get, set_fs, set_now. simpl.
  rewrite Hdl.
  repeat case_match; simpl; simplify_eq; try (by eexists); lia.
Qed.

Lemma cmd_Run_fs (c : Cmd) (s : OS) (x : string) :
  confined E -> under (Dir c) x = false ->
  fs (snd (cmd_Run E c s)) !! x = fs s !! x.
Proof.
  intros Hconf Hx.
  unfold cmd_Run, bind, ret, emit, get, set_fs, set_now. simpl.
  repeat case_match; simpl; try done; by apply Hconf.
Qed.

(** Either the runner stops before [cmd.Run], with an error and the clock
    untouched, or it reaches [cmd.Run] in a state where only the scratch
    directory was added.  In both cases nothing is added to the file system
    apart from what may be left of the scratch directory, and nothing is
    left of it when [os.RemoveAll] reported no error. *)
Lemma ExecOsqueryLaunchctl_steps (ctx : Context) (ts : Z)
    (username osqueryPath query : string) (s : OS) :
  let d := Duration_mul ts Second in
  let m := ExecOsqueryLaunchctl E ctx ts username osqueryPath query in
  exists l,
    trace (snd (m s)) = trace s ++ l /\
    ((fst (fst (m s)) = [] /\ is_Some (snd (fst (m s))) /\
      now (snd (m s)) = now s /\
      runs l = [] /\
      (removal_errors l = [] ->
       forall x v, fs (snd (m s)) !! x = Some v -> fs s !! x = Some v)) \/
     exists usr dir s3,
       let c := launchctl_cmd (with_timeout ctx (now s) d) usr
                  osqueryPath query dir in
       let rr := cmd_Run E c s3 in
       fs s3 = <[dir := perm_0o755]> (<[dir := perm_0o700]> (fs s)) /\
       now s3 = now s /\
       now (snd (m s)) = now (snd rr) /\
       (removal_errors l = [] ->
        forall x v, fs (snd (m s)) !! x = Some v ->
                    under dir x = false /\ fs (snd rr) !! x = Some v) /\
       runs l = [c] /\
       fst (m s) = run_result (fst rr)).
Proof.
  intros d m. subst m.
  unfold ExecOsqueryLaunchctl, defer, context_WithTimeout, cancel, Lookup,
    bind, ret, emit, get. simpl.
  fold d.
  set (s1 := {| fs := fs s; now := now s;
                trace := (trace s ++ [EvWithTimeout d]) ++ [EvLookup username] |}).
  destruct (user_Lookup E s1 username) as [err|usr] eqn:Hl.
  { simpl. rewrite <- !app_assoc. simpl. eexists. split; [reflexivity|].
    left. repeat split; try done; by eexists. }
  unfold os_MkdirTemp, bind, ret, emit, get, set_fs. simpl.
  destruct (mkdir_temp E s1 EmptyString "osq-launchctl") as [err|dir] eqn:Hm.
  { simpl. rewrite <- !app_assoc. simpl. eexists. split; [reflexivity|].
    left. repeat split; try done; by eexists. }
  simpl.
  unfold os_Chmod, bind, ret, emit, get, set_fs. simpl.
  rewrite lookup_insert_eq.
  assert (Hrem : forall st (a : bytes * error),
    exists rm f',
      (let (_, s'') := os_RemoveAll E dir st in (a, s'')) =
        (a, {| fs := f'; now := now st;
               trace := trace st ++ [EvRemoveAll dir rm] |}) /\
      (rm = None ->
       forall x v, f' !! x = Some v -> under dir x = false /\ fs st !! x = Some v)).
  { intros st a.
    destruct (os_RemoveAll_spec E dir st) as (rm & f' & -> & Hgone & Hsub & _).
    exists rm, f'. split; [done|]. intros Hrm x v Hx. split; [|by apply Hsub].
    destruct (under dir x) eqn:Hu; [|done].
    by rewrite (Hgone Hrm x Hu) in Hx. }
  match goal with |- context [chmod_err E ?s2 dir perm_0o755] =>
    destruct (chmod_err E s2 dir perm_0o755) as [err|] eqn:Hc end.
  { simpl.
    match goal with
      |- context [let (_, s'') := os_RemoveAll E dir ?st in (?a, s'')] =>
        destruct (Hrem st a) as (rm & f' & -> & Hgone) end.
    simpl. rewrite <- !app_assoc. simpl. eexists. split; [reflexivity|].
    left. split; [done|]. split; [by eexists|]. do 2 (split; [done|]).
    simpl. destruct rm as [rm|]; [discriminate|]. intros _ x v Hx.
    destruct (Hgone eq_refl x v Hx) as [Hu Hx']. simpl in Hx'.
    rewrite lookup_insert_ne in Hx'; [done|].
    intros <-. by rewrite under_refl in Hu. }
  simpl.
  match goal with |- context [cmd_Run E ?c ?s3] =>
    set (c' := c); set (s3' := s3) end.
  destruct (cmd_Run_spec E c' s3') as (e & out & err & f & t & Hrun).
  rewrite Hrun.
  destruct e as [e|]; simpl;
    match goal with
      |- context [let (_, s'') := os_RemoveAll E dir ?st in (?a, s'')] =>
        destruct (Hrem st a) as (rm & f' & -> & Hgone) end;
    simpl; rewrite lookup_insert_eq;
    (exists [EvWithTimeout d; EvLookup username;
             EvMkdirTemp "osq-launchctl" (inr dir); EvChmod dir perm_0o755;
             EvRun c' (Some perm_0o755); EvRemoveAll dir rm; EvCancel]);
    (split; [by rewrite <- !app_assoc|]);
    right; exists usr, dir, s3'; cbv zeta;
    change (launchctl_cmd (with_timeout ctx (now s) d) usr osqueryPath query dir)
      with c';
    rewrite Hrun; simpl;
    do 3 (split; [done|]); (split; [|done]);
    intros Hrm x v Hx; (destruct rm; [discriminate|]);
    by apply (Hgone eq_refl).
Qed.


End Runner.

(** X1. On every exit path the runner derives one timeout context, asks
    for the user once, straight after, and calls cancel once, as its very
    last action. *)
Theorem runner_cancels_last (E : Env) (ctx : Context) (ts : Z)
    (username osqueryPath query : string) (s : OS) :
  exists mid,
    calls (ExecOsqueryLaunchctl E ctx ts username osqueryPath query) s =
      EvWithTimeout (Duration_mul ts Second) :: EvLookup username
        :: mid ++ [EvCancel] /\
    (EvCancel ∉ mid) /\ timeouts mid = [] /\ lookups mid = [].
Proof.
  destruct (ExecOsqueryLaunchctl_path E ctx ts username osqueryPath query s)
    as (path & _ & Htr & _).
  apply calls_eq in Htr. rewrite Htr. unfold path_calls.
  eexists. split; [reflexivity|].
  destruct path; simpl; (split; [|done]); intros Hin;
    repeat (rewrite ?elem_of_cons, ?elem_of_nil in Hin);
    intuition discriminate.
Qed.

(** X2. When user.Lookup fails for the username, the runner returns no
    output and the error of the lookup, wrapped and naming the user; it
    creates no directory, starts no program and leaves the file system and
    the clock as they were. *)
Theorem runner_unknown_user (E : Env) (ctx : Context) (ts : Z)
    (username osqueryPath query : string) (s : OS) (err : string) :
  user_Lookup E (lookup_state s (Duration_mul ts Second) username) username
    = inl err ->
  let m := ExecOsqueryLaunchctl E ctx ts username osqueryPath query in
  fst (m s) = ([], Some ("looking up username " +:+ username +:+ ": " +:+ err)) /\
  calls m s = [EvWithTimeout (Duration_mul ts Second); EvLookup username; EvCancel] /\
  fs (snd (m s)) = fs s /\ now (snd (m s)) = now s.
Proof.
  intros Hunknown m. subst m. unfold lookup_state in Hunknown.
  unfold calls, ExecOsqueryLaunchctl, defer, context_WithTimeout, cancel,
    Lookup, bind, ret, emit, get. simpl.
  rewrite <- app_assoc. simpl. rewrite Hunknown. simpl.
  split; [done|]. split; [|done].
  by rewrite <- !app_assoc, drop_app_length.
Qed.

Lemma runner_unknown_user_witness :
  user_Lookup Demo.env (lookup_state Demo.boot (Duration_mul 5 Second) "erin")
    "erin" = inl "user: unknown user erin" /\
  calls (ExecOsqueryLaunchctl Demo.env Demo.background 5 "erin"
           (osqueryd Demo.tbl) (query Demo.tbl)) Demo.boot
  = [EvWithTimeout 5000000000; EvLookup "erin"; EvCancel].
Proof.
  split; [reflexivity|].
  refine (proj1 (proj2 (runner_unknown_user Demo.env Demo.background 5 "erin"
                          (osqueryd Demo.tbl) (query Demo.tbl) Demo.boot
                          "user: unknown user erin" _))).
  reflexivity.
Defined.

(** X3. Whenever the runner returns an error it returns no output bytes,
    also when the program had written some before failing or being killed;
    and the error is one of four wrapped errors, told apart by their
    prefix. *)
Theorem runner_error_no_output (E : Env) (ctx : Context) (ts : Z)
    (username osqueryPath query : string) (s : OS) (out : bytes) (e : string) :
  fst (ExecOsqueryLaunchctl E ctx ts username osqueryPath query s)
    = (out, Some e) ->
  out = [] /\
  (String.prefix "looking up username " e = true \/
   String.prefix "mktemp: " e = true \/
   String.prefix "chmod: " e = true \/
   String.prefix "running osquery. Got: '" e = true).
Proof.
  intros H.
  destruct (ExecOsqueryLaunchctl_path E ctx ts username osqueryPath query s)
    as (path & Hres & _).
  rewrite H in Hres.
  destruct path as [err|usr err|usr dir err|usr dir [err|] o eb];
    simpl in Hres; simplify_eq; (split; [done|]).
  - left. apply prefix_app.
  - right. left. apply prefix_app.
  - do 2 right. left. apply prefix_app.
  - do 3 right. apply prefix_app.
Qed.

Lemma runner_error_no_output_witness :
  fst (ExecOsqueryLaunchctl Demo.env Demo.background 5 "bob"
         (osqueryd Demo.tbl) (query Demo.tbl) Demo.boot)
    = ([], Some "running osquery. Got: '': signal: killed") /\
  (([] : bytes) = [] /\
   (String.prefix "looking up username "
      "running osquery. Got: '': signal: killed" = true \/
    String.prefix "mktemp: " "running osquery. Got: '': signal: killed" = true \/
    String.prefix "chmod: " "running osquery. Got: '': signal: killed" = true \/
    String.prefix "running osquery. Got: '"
      "running osquery. Got: '': signal: killed" = true)).
Proof.
  split; [by vm_compute|].
  apply (runner_error_no_output Demo.env Demo.background 5 "bob"
           (osqueryd Demo.tbl) (query Demo.tbl) Demo.boot).
  by vm_compute.
Defined.

(** X4. The runner starts at most one program, without retry, and always
    under a context whose deadline is the earlier of the caller's deadline
    and the timeout counted from the moment the runner was entered. *)
Theorem runner_one_program_under_deadline (E : Env) (ctx : Context) (ts : Z)
    (username osqueryPath query : string) (s : OS) :
  let d := Duration_mul ts Second in
  let l := runs (calls (ExecOsqueryLaunchctl E ctx ts username osqueryPath query) s) in
  (length l <= 1)%nat /\
  Forall (fun c =>
            exists dl,
              Deadline (cmd_ctx c) = Some dl /\ dl <= now s + d /\
              match Deadline ctx with
              | Some p => dl = Z.min p (now s + d)
              | None => dl = now s + d
              end) l.
Proof.
  intros d l. subst l.
  destruct (ExecOsqueryLaunchctl_steps E ctx ts username osqueryPath query s)
    as (l & Htr & [(_ & _ & _ & Hruns & _) | (usr & dir & s3 & H)]);
    apply calls_eq in Htr; rewrite Htr.
  - rewrite Hruns. split; [simpl; lia|constructor].
  - destruct H as (_ & _ & _ & _ & Hruns & _). rewrite Hruns.
    split; [simpl; lia|]. constructor; [|constructor]. simpl.
    apply with_timeout_deadline.
Qed.

(** X6. With a timeout of zero seconds or less, which includes a number of
    seconds so large that the duration overflows to a negative one, the
    context is already past its deadline when the program is to be
    started: the runner returns an error and no output, and takes no
    time. *)
Theorem runner_nonpositive_timeout (E : Env) (ctx : Context) (ts : Z)
    (username osqueryPath query : string) (s : OS) :
  Duration_mul ts Second <= 0 ->
  let r := ExecOsqueryLaunchctl E ctx ts username osqueryPath query s in
  fst (fst r) = [] /\ is_Some (snd (fst r)) /\ now (snd r) = now s.
Proof.
  intros Hd r. subst r.
  destruct (ExecOsqueryLaunchctl_steps E ctx ts username osqueryPath query s)
    as (l & _ & [(? & ? & ? & _) | (usr & dir & s3 & H)]); [done|].
  cbv zeta in H. destruct H as (_ & Hnow3 & Hnow & _ & _ & Hres).
  rewrite Hres, Hnow.
  match goal with |- context [cmd_Run E ?c s3] =>
    assert (Hexp : expired (cmd_ctx c) (now s3) = true) end.
  { unfold expired. simpl. rewrite Hnow3.
    destruct (Deadline ctx); apply Z.leb_le; lia. }
  destruct (cmd_Run_expired E _ _ Hexp) as [-> ->].
  simpl. repeat split; [by eexists|done].
Qed.

Lemma runner_nonpositive_timeout_witness :
  Duration_mul 9223372037 Second <= 0 /\
  is_Some (snd (fst (ExecOsqueryLaunchctl Demo.env Demo.background 9223372037
                       "alice" (osqueryd Demo.tbl) (query Demo.tbl) Demo.boot))).
Proof.
  split; [by vm_compute|].
  refine (proj1 (proj2 (runner_nonpositive_timeout Demo.env Demo.background
            9223372037 "alice" (osqueryd Demo.tbl) (query Demo.tbl)
            Demo.boot _))).
  by vm_compute.
Defined.



(* ===================================================================== *)
(** * Further properties of the decoder and of the table *)
(* ===================================================================== *)

Section Loops.

Variable E : Env.

(** Decoding changes neither the file system nor the clock. *)
Lemma Parsed_same_state (ctx : Context) (ts : Z)
    (username osqueryPath query : string) (s : OS) :
  let s1 := snd (ExecOsqueryLaunchctl E ctx ts username osqueryPath query s) in
  let s2 := snd (ExecOsqueryLaunchctlParsed E ctx ts username osqueryPath query s) in
  fs s2 = fs s1 /\ now s2 = now s1.
Proof.
  simpl. rewrite ExecOsqueryLaunchctlParsed_unfold.
  destruct (ExecOsqueryLaunchctl E ctx ts username osqueryPath query s)
    as [[out [err|]] s1]; [done|].
  by destruct (json_Unmarshal E out) as [rows [err|]].
Qed.

(** What a failing runner yields is what the decoding runner yields. *)
Lemma Parsed_error (ctx : Context) (ts : Z)
    (username osqueryPath query : string) (s : OS) :
  is_Some (snd (fst (ExecOsqueryLaunchctl E ctx ts username osqueryPath query s))) ->
  is_Some (snd (fst (ExecOsqueryLaunchctlParsed E ctx ts username osqueryPath
                       query s))).
Proof.
  rewrite ExecOsqueryLaunchctlParsed_unfold.
  destruct (ExecOsqueryLaunchctl E ctx ts username osqueryPath query s)
    as [[out [err|]] s1]; simpl; [by eexists|]. by intros [? ?].
Qed.

(** When every turn fails, whatever the state, the loop returns the rows it
    started with. *)
Lemma generate_users_all_skip (t : Table) (ctx : Context) (users : list string) :
  (forall u s, is_Some (snd (fst (ExecOsqueryLaunchctlParsed E ctx 5 u
                                    (osqueryd t) (query t) s)))) ->
  forall results s, fst (generate_users E t ctx users results s) = Return results.
Proof.
  intros Hfail. induction users as [|u users IH]; intros results s; [done|].
  rewrite generate_users_skip by apply Hfail. apply IH.
Qed.

(** A program that outlasts the timeout makes the runner fail. *)
Lemma ExecOsqueryLaunchctl_slow (ctx : Context) (ts : Z)
    (username osqueryPath query : string) (s : OS) :
  (forall s0 c, Duration_mul ts Second < duration (spawn E s0 c)) ->
  is_Some (snd (fst (ExecOsqueryLaunchctl E ctx ts username osqueryPath query s))).
Proof.
  intros Hslow.
  destruct (ExecOsqueryLaunchctl_steps E ctx ts username osqueryPath query s)
    as (l & _ & [(_ & ? & _) | (usr & dir & s3 & H)]); [done|].
  cbv zeta in H. destruct H as (_ & Hnow3 & _ & _ & _ & Hres).
  rewrite Hres.
  destruct (with_timeout_deadline ctx (now s) (Duration_mul ts Second))
    as (dl & Hsome & Hbound & _).
  match goal with |- context [cmd_Run E ?c s3] =>
    pose proof (cmd_Run_slow E c s3 dl Hsome) as Hrun;
    specialize (Hslow s3 c);
    destruct (cmd_Run E c s3) as [[[e o] eb] s4] end.
  simpl in Hrun |- *. destruct Hrun as [e' ->]; [lia|]. by eexists.
Qed.

(** The decoder only ever adds its log line to what the runner logged. *)
Lemma Parsed_trace (ctx : Context) (ts : Z)
    (username osqueryPath query : string) (s : OS) :
  exists log,
    trace (snd (ExecOsqueryLaunchctlParsed E ctx ts username osqueryPath query s))
    = trace (snd (ExecOsqueryLaunchctl E ctx ts username osqueryPath query s))
      ++ log /\
    (log = [] \/ log = [EvLog "error unmarshalling json"]).
Proof.
  rewrite ExecOsqueryLaunchctlParsed_unfold.
  destruct (ExecOsqueryLaunchctl E ctx ts username osqueryPath query s)
    as [[out [err|]] s1]; simpl.
  { exists []. rewrite app_nil_r. auto. }
  destruct (json_Unmarshal E out) as [rows [err|]]; simpl.
  - eexists. split; [reflexivity|auto].
  - exists []. rewrite app_nil_r. auto.
Qed.

(** One turn, seen from the loop: its calls, the single lookup among them
    and, when [os.RemoveAll] reported no error, the scratch directory gone
    and, with confined programs, nothing added to the file system. *)
Lemma Parsed_turn_effects (ctx : Context) (ts : Z)
    (username osqueryPath query : string) (s : OS) :
  let s1 := snd (ExecOsqueryLaunchctlParsed E ctx ts username osqueryPath query s) in
  exists l,
    trace s1 = trace s ++ l /\
    lookups l = [username] /\
    (removal_errors l = [] ->
     (forall pat dir x, EvMkdirTemp pat (inr dir) ∈ l -> under dir x = true ->
                        fs s1 !! x = None) /\
     (confined E -> forall x v, fs s1 !! x = Some v -> fs s !! x = Some v)).
Proof.
  simpl.
  destruct (Parsed_trace ctx ts username osqueryPath query s) as (log & Htr & Hlog).
  destruct (Parsed_same_state ctx ts username osqueryPath query s) as [Hfs _].
  rewrite Htr, Hfs. clear Htr Hfs.
  destruct (ExecOsqueryLaunchctl_path E ctx ts username osqueryPath query s)
    as (path & _ & Htr & Hgone & _).
  destruct (ExecOsqueryLaunchctl_steps E ctx ts username osqueryPath query s)
    as (l & Htr' & Hsteps).
  rewrite Htr in Htr'. apply app_inv_head in Htr'. subst l.
  set (pc := path_calls (with_timeout ctx (now s) (Duration_mul ts Second))
               (Duration_mul ts Second) username osqueryPath query path) in *.
  exists (pc ++ log). rewrite Htr, <- app_assoc. split; [done|]. split.
  { rewrite lookups_app. destruct Hlog as [-> | ->]; by destruct path. }
  rewrite removal_errors_app. intros [Hrm _]%app_eq_nil. split.
  - intros pat dir x Hin. apply Hgone.
    + clear -Hin Hlog. subst pc.
      destruct Hlog as [-> | ->]; destruct path; mem_cases Hin;
        intuition (try discriminate; by simplify_eq).
    + clear -Hin Hlog Hrm. subst pc.
      destruct Hlog as [-> | ->];
        destruct path as [| | ? ? ? [rm|]| ? ? ? ? ? [rm|]]; try done;
        mem_cases Hin; intuition discriminate.
  - intros Hconf x v Hx.
    destruct Hsteps as [(_ & _ & _ & _ & Hshr) | (usr & dir & s3 & H)];
      [by apply Hshr|].
    cbv zeta in H. destruct H as (Hfs3 & _ & _ & Hshr & _).
    destruct (Hshr Hrm x v Hx) as [Hu Hx'].
    rewrite cmd_Run_fs in Hx' by done. rewrite Hfs3 in Hx'.
    assert (x <> dir) by (intros ->; by rewrite under_refl in Hu).
    by rewrite !lookup_insert_ne in Hx'.
Qed.

(** The loop as a whole: its calls, one lookup per user when it returns,
    and, when no [os.RemoveAll] reported an error and the programs are
    confined, a file system with nothing new in it and no scratch directory
    left. *)
Lemma generate_users_effects (t : Table) (ctx : Context) (users : list string) :
  forall results s,
    let g := generate_users E t ctx users results s in
    exists l,
      trace (snd g) = trace s ++ l /\
      (forall rows, fst g = Return rows -> lookups l = users) /\
      (removal_errors l = [] -> confined E ->
       (forall x v, fs (snd g) !! x = Some v -> fs s !! x = Some v) /\
       (forall pat dir x, EvMkdirTemp pat (inr dir) ∈ l -> under dir x = true ->
                          fs (snd g) !! x = None)).
Proof.
  induction users as [|u users IH]; intros results s; simpl.
  { exists []. unfold ret. simpl. rewrite app_nil_r.
    split; [done|]. split; [done|]. intros _ _. split; [done|].
    intros pat dir x Hin. by apply elem_of_nil in Hin. }
  unfold bind.
  destruct (Parsed_turn_effects ctx 5 u (osqueryd t) (query t) s)
    as (l1 & Htr1 & Hl1 & Hfs1).
  destruct (ExecOsqueryLaunchctlParsed E ctx 5 u (osqueryd t) (query t) s)
    as [[osq err] s1]. simpl in Htr1, Hfs1.
  assert (Hrest : forall res,
    let g := generate_users E t ctx users res s1 in
    exists l,
      trace (snd g) = trace s ++ l /\
      (forall rows, fst g = Return rows -> lookups l = u :: users) /\
      (removal_errors l = [] -> confined E ->
       (forall x v, fs (snd g) !! x = Some v -> fs s !! x = Some v) /\
       (forall pat dir x, EvMkdirTemp pat (inr dir) ∈ l -> under dir x = true ->
                          fs (snd g) !! x = None))).
  { intros res. destruct (IH res s1) as (l2 & Htr2 & Hl2 & Hfs2). simpl.
    exists (l1 ++ l2). rewrite Htr2, Htr1, <- app_assoc. split; [done|]. split.
    - intros rows Hret. rewrite lookups_app, Hl1, (Hl2 rows Hret). done.
    - rewrite removal_errors_app. intros [Hrm1 Hrm2]%app_eq_nil Hconf.
      destruct (Hfs1 Hrm1) as [Hgone1 Hshr1]. specialize (Hshr1 Hconf).
      destruct (Hfs2 Hrm2 Hconf) as [Hshr2 Hgone2]. split.
      + intros x v Hx. apply Hshr1. by apply Hshr2.
      + intros pat dir x Hin Hu. apply elem_of_app in Hin as [Hin|Hin].
        * destruct (fs (snd (generate_users E t ctx users res s1)) !! x)
            as [v|] eqn:Hx; [|done].
          apply Hshr2 in Hx. by rewrite (Hgone1 pat dir x Hin Hu) in Hx.
        * by apply (Hgone2 pat dir x). }
  destruct err as [err|]; [apply Hrest|].
  destruct (generate_rows u osq results) as [res|msg]; [apply Hrest|].
  exists l1. unfold ret. simpl. split; [done|]. split; [done|].
  intros Hrm Hconf. destruct (Hfs1 Hrm) as [Hgone1 Hshr1]. split; [auto|done].
Qed.

End Loops.

Lemma append_assoc (a b c : string) : a +:+ (b +:+ c) = (a +:+ b) +:+ c.
Proof.
  induction a as [|ch a IH]; [done|].
  change (String ch (a +:+ (b +:+ c)) = String ch ((a +:+ b) +:+ c)).
  by rewrite IH.
Qed.

(** The programs of the demonstration machine are confined. *)
Lemma Demo_env_confined : confined Demo.env.
Proof.
  intros s c x Hx. simpl. unfold Demo.program.
  assert (Hne : Dir c +:+ "/osquery.flags" <> x).
  { intros <-. unfold under in Hx. apply orb_false_elim in Hx as [_ Hx].
    change (Dir c +:+ "/osquery.flags")
      with (Dir c +:+ ("/" +:+ "osquery.flags")) in Hx.
    rewrite append_assoc, prefix_app in Hx. discriminate. }
  repeat case_match; simpl; try done; by rewrite lookup_insert_ne.
Qed.

(** X9. When every program outlasts the five seconds, each user is given
    up on and generate returns no rows and no error. *)
Theorem generate_slow_programs_no_rows (E : Env) (t : Table) (ctx : Context)
    (queryContext : QueryContext) (s : OS) :
  (forall s0 c, 5 * Second < duration (spawn E s0 c)) ->
  GetConstraints E queryContext "user" allowedUsernameCharacters <> [] ->
  fst (generate E t ctx queryContext s) = Return ([], None).
Proof.
  intros Hslow Hne. rewrite generate_nonempty by done.
  pose proof (generate_users_all_skip E t ctx
                (GetConstraints E queryContext "user" allowedUsernameCharacters))
    as Hskip.
  rewrite (surjective_pairing (generate_users E t ctx _ [] s)).
  rewrite Hskip; [done|].
  intros u s0. apply Parsed_error, ExecOsqueryLaunchctl_slow.
  intros s1 c. by change (Duration_mul 5 Second) with (5 * Second).
Qed.

Lemma generate_slow_programs_no_rows_witness :
  fst (generate Faulty.env_hang Demo.tbl Demo.background
         (Demo.where_user ["alice"; "carol"]) Demo.boot) = Return ([], None).
Proof.
  apply (generate_slow_programs_no_rows Faulty.env_hang Demo.tbl
           Demo.background (Demo.where_user ["alice"; "carol"]) Demo.boot).
  - intros s0 c. by vm_compute.
  - by vm_compute.
Defined.

(** X10. When the programs only write at or below their working directory
    and no os.RemoveAll of the call reports an error, a call of generate
    leaves nothing behind: every path that exists afterwards existed before
    with the same mode, and no scratch directory created during the call,
    nor anything below one, exists afterwards. *)
Theorem generate_leaves_no_files (E : Env) (t : Table) (ctx : Context)
    (queryContext : QueryContext) (s : OS) :
  confined E ->
  let m := generate E t ctx queryContext in
  removal_errors (calls m s) = [] ->
  (forall x v, fs (snd (m s)) !! x = Some v -> fs s !! x = Some v) /\
  (forall pat dir x,
     EvMkdirTemp pat (inr dir) ∈ calls m s -> under dir x = true ->
     fs (snd (m s)) !! x = None).
Proof.
  intros Hconf m. subst m. unfold calls, generate.
  set (users := GetConstraints E queryContext "user" allowedUsernameCharacters).
  destruct (length users =? 0)%nat.
  { simpl. intros _. split; [done|]. intros pat dir x Hin.
    rewrite drop_all in Hin. by apply elem_of_nil in Hin. }
  unfold bind.
  destruct (generate_users_effects E t ctx users [] s) as (l & Htr & _ & Hfs).
  destruct (generate_users E t ctx users [] s) as [[rows|msg] s'];
    simpl in *; rewrite Htr, drop_app_length; intros Hrm;
    destruct (Hfs Hrm Hconf) as [Hshr Hgone]; by split.
Qed.

Lemma generate_leaves_no_files_witness :
  fs (snd (generate Demo.env Demo.tbl Demo.background
             (Demo.where_user ["alice"; "bob"]) Demo.boot))
    !! "/tmp/osq-launchctl2051621813/osquery.flags" = None.
Proof.
  refine (proj2 (generate_leaves_no_files Demo.env Demo.tbl Demo.background
                   (Demo.where_user ["alice"; "bob"]) Demo.boot
                   Demo_env_confined _)
            "osq-launchctl" "/tmp/osq-launchctl2051621813"
            "/tmp/osq-launchctl2051621813/osquery.flags" _ _).
  - by vm_compute.
  - vm_compute. do 2 apply list_elem_of_further. apply list_elem_of_here.
  - reflexivity.
Defined.

(** X11. When generate returns, it has asked for each requested username
    exactly once, in the order of the list, duplicates included, and for
    nobody else. *)
Theorem generate_looks_up_each_user_once (E : Env) (t : Table) (ctx : Context)
    (queryContext : QueryContext) (s : OS) (rows : list Row) (err : error) :
  fst (generate E t ctx queryContext s) = Return (rows, err) ->
  lookups (calls (generate E t ctx queryContext) s)
  = GetConstraints E queryContext "user" allowedUsernameCharacters.
Proof.
  unfold calls, generate.
  set (users := GetConstraints E queryContext "user" allowedUsernameCharacters).
  destruct (length users =? 0)%nat eqn:Hlen.
  { simpl. intros _. rewrite drop_all. apply Nat.eqb_eq in Hlen.
    by destruct users. }
  unfold bind.
  destruct (generate_users_effects E t ctx users [] s) as (l & Htr & Hl & _).
  destruct (generate_users E t ctx users [] s) as [[res|msg] s'];
    simpl in *; [|discriminate].
  intros _. rewrite Htr, drop_app_length. by apply (Hl res).
Qed.

Lemma generate_looks_up_each_user_once_witness :
  lookups (calls (generate Demo.env Demo.tbl Demo.background
                    (Demo.where_user ["bob"; "alice"])) Demo.boot)
  = ["bob"; "alice"].
Proof.
  refine (eq_trans
            (generate_looks_up_each_user_once Demo.env Demo.tbl Demo.background
               (Demo.where_user ["bob"; "alice"]) Demo.boot
               [Some (<["user" := "alice"]> {[ "key" := "v" ]})] None _) _).
  - by vm_compute.
  - by vm_compute.
Defined.



Lemma generate_rows_prefix (user : string) (osqueryResults pre acc : list Row) :
  generate_rows user osqueryResults (pre ++ acc) =
  match generate_rows user osqueryResults acc with
  | Return r => Return (pre ++ r)
  | Panic msg => Panic msg
  end.
Proof.
  revert acc. induction osqueryResults as [|[m|] rows IH]; intros acc; simpl;
    [done| |done].
  by rewrite <- app_assoc, IH.
Qed.

Lemma generate_users_prefix (E : Env) (t : Table) (ctx : Context)
    (users : list string) :
  forall (pre acc : list Row) (s : OS),
    generate_users E t ctx users (pre ++ acc) s =
    match generate_users E t ctx users acc s with
    | (Return r, s') => (Return (pre ++ r), s')
    | (Panic msg, s') => (Panic msg, s')
    end.
Proof.
  induction users as [|u users IH]; intros pre acc s; simpl; [done|].
  unfold bind.
  destruct (ExecOsqueryLaunchctlParsed E ctx 5 u (osqueryd t) (query t) s)
    as [[osq [err|]] s1]; [apply IH|].
  rewrite generate_rows_prefix.
  destruct (generate_rows u osq acc) as [r|msg]; [apply IH|done].
Qed.

(** X13. Running the loop over two lists of users in a row is running it
    over the first list and then, from the rows and the state that leaves,
    over the second; a panic in the first part ends the whole. *)
Theorem generate_users_app (E : Env) (t : Table) (ctx : Context)
    (users1 users2 : list string) (results : list Row) (s : OS) :
  generate_users E t ctx (users1 ++ users2) results s =
  match generate_users E t ctx users1 results s with
  | (Return r, s1) => generate_users E t ctx users2 r s1
  | (Panic msg, s1) => (Panic msg, s1)
  end.
Proof.
  revert results s. induction users1 as [|u users1 IH]; intros results s;
    simpl; [done|].
  unfold bind.
  destruct (ExecOsqueryLaunchctlParsed E ctx 5 u (osqueryd t) (query t) s)
    as [[osq [err|]] s1]; [apply IH|].
  destruct (generate_rows u osq results) as [r|msg]; [apply IH|done].
Qed.

(** X14. The rows already collected have no influence on what the loop
    does: started with some rows instead of none, it makes the same calls,
    ends in the same state and returns those rows, untouched, followed by
    the rows it would have returned otherwise. *)
Theorem generate_users_keeps_collected (E : Env) (t : Table) (ctx : Context)
    (users : list string) (results : list Row) (s : OS) :
  generate_users E t ctx users results s =
  match generate_users E t ctx users [] s with
  | (Return r, s') => (Return (results ++ r), s')
  | (Panic msg, s') => (Panic msg, s')
  end.
Proof.
  rewrite <- (app_nil_r results) at 1. apply generate_users_prefix.
Qed.

(** X15. The decoder logs its one line exactly when the runner succeeded
    and json.Unmarshal rejected the output; decoding changes neither the
    file system nor the clock. *)
Theorem decode_logs_iff_unmarshal_fails (E : Env) (ctx : Context) (ts : Z)
    (username osqueryPath query : string) (s : OS) :
  let r0 := ExecOsqueryLaunchctl E ctx ts username osqueryPath query s in
  let m := ExecOsqueryLaunchctlParsed E ctx ts username osqueryPath query in
  (EvLog "error unmarshalling json" ∈ calls m s <->
   exists out rows e, fst r0 = (out, None) /\ json_Unmarshal E out = (rows, Some e)) /\
  fs (snd (m s)) = fs (snd r0) /\ now (snd (m s)) = now (snd r0).
Proof.
  intros r0 m. subst r0 m.
  split; [|apply Parsed_same_state].
  destruct (ExecOsqueryLaunchctl_path E ctx ts username osqueryPath query s)
    as (path & _ & Htr & _).
  set (pc := path_calls (with_timeout ctx (now s) (Duration_mul ts Second))
               (Duration_mul ts Second) username osqueryPath query path) in *.
  assert (Hpc : EvLog "error unmarshalling json" ∉ pc).
  { subst pc. clear. intros Hin. destruct path; mem_cases Hin;
      intuition discriminate. }
  unfold calls. rewrite ExecOsqueryLaunchctlParsed_unfold.
  destruct (ExecOsqueryLaunchctl E ctx ts username osqueryPath query s)
    as [[out [err|]] s1]; simpl in *.
  { rewrite Htr, drop_app_length. split; [done|].
    by intros (o & rows & e & [=] & _). }
  destruct (json_Unmarshal E out) as [rows [err|]] eqn:Hjson; simpl.
  - rewrite Htr, <- app_assoc, drop_app_length. split; [eauto|].
    intros _. apply elem_of_app. right. apply list_elem_of_here.
  - rewrite Htr, drop_app_length. split; [done|].
    intros (o & rows' & e & [= <-] & Hj). rewrite Hjson in Hj. discriminate.
Qed.
